(** * sort_folder.py: the image review session, embedded and verified

    The development follows [src/sort_folder.py].  The [ImageGui] object is a
    record, its methods are computations in a state monad with exceptions
    whose state is the object together with the file system, and the helpers
    of [os.path] and [shutil] that the methods call are functions on strings
    and on a finite map from path names to file contents.

    What lies outside the program is kept as small as the methods need it:
    path names follow [posixpath]; a file is its text; whether Pillow can
    decode a file is a parameter; the window system is the list of bound key
    patterns, matched against the key presses it has seen, and a flag for
    [master.quit()]; what [print] writes is left out. *)

From Stdlib Require Import Ascii String Decimal DecimalString DecimalNat.
From stdpp Require Import gmap strings list fin_maps.

Local Open Scope string_scope.

(** ** Python exceptions the program can raise *)

Inductive exn : Type :=
| IndexError
| KeyError
| ValueError
| NameError
| AttributeError
| TypeError
| FileNotFoundError
| IsADirectoryError
| NotADirectoryError
| SameFileError
| UnidentifiedImageError
| OverflowError
| MemoryError.

Inductive outcome (A : Type) : Type :=
| Returned (a : A)
| Raised (e : exn).
Arguments Returned {A} a.
Arguments Raised {A} e.

Definition returns {A} (o : outcome A) : bool :=
  match o with Returned _ => true | Raised _ => false end.

(** ** State with exceptions

    A Python exception does not undo the assignments made before it: a
    computation returns the state it reached together with its outcome. *)

Module PyM.
Definition t (S A : Type) : Type := S -> S * outcome A.

Definition ret {S A} (a : A) : t S A := fun s => (s, Returned a).
Definition raise {S A} (e : exn) : t S A := fun s => (s, Raised e).
Definition bind {S A B} (m : t S A) (k : A -> t S B) : t S B :=
  fun s => match m s with
           | (s', Returned a) => k a s'
           | (s', Raised e) => (s', Raised e)
           end.
Definition get {S} : t S S := fun s => (s, Returned s).
Definition modify {S} (f : S -> S) : t S unit := fun s => (f s, Returned tt).
Definition lift {S A} (o : outcome A) : t S A := fun s => (s, o).

(** [for x in l: body x] *)
Fixpoint for_each {S A} (l : list A) (body : A -> t S unit) : t S unit :=
  match l with
  | [] => ret tt
  | x :: l' => bind (body x) (fun _ => for_each l' body)
  end.
End PyM.

Declare Scope py_scope.
Delimit Scope py_scope with py.
Notation "x <- m ;; k" := (PyM.bind m (fun x => k))
  (at level 100, m at next level, right associativity) : py_scope.
Notation "m ;;; k" := (PyM.bind m (fun _ => k))
  (at level 100, right associativity) : py_scope.

(** ** [os.path] on POSIX path names *)

Definition sep : ascii := "/"%char.

Definition is_sep (c : ascii) : bool := Ascii.eqb c sep.

Definition str_nonempty (s : string) : bool :=
  match s with EmptyString => false | String _ _ => true end.

Definition startswith_sep (s : string) : bool :=
  match s with EmptyString => false | String c _ => is_sep c end.

Fixpoint endswith_sep (s : string) : bool :=
  match s with
  | EmptyString => false
  | String c EmptyString => is_sep c
  | String _ s' => endswith_sep s'
  end.

Fixpoint all_sep (s : string) : bool :=
  match s with
  | EmptyString => true
  | String c s' => is_sep c && all_sep s'
  end.

(** [head.rstrip('/')] *)
Fixpoint rstrip_sep (s : string) : string :=
  match s with
  | EmptyString => EmptyString
  | String c s' =>
      match rstrip_sep s' with
      | EmptyString => if is_sep c then EmptyString else String c EmptyString
      | r => String c r
      end
  end.

(** [i = p.rfind('/') + 1; (p[:i], p[i:])] *)
Fixpoint cut_last_sep (p : string) : string * string :=
  match p with
  | EmptyString => (EmptyString, EmptyString)
  | String c p' =>
      match cut_last_sep p' with
      | (EmptyString, t) =>
          if is_sep c then (String c EmptyString, t) else (EmptyString, String c t)
      | (h, t) => (String c h, t)
      end
  end.

(** [os.path.split]: the head loses its trailing separators unless it
    consists of separators only. *)
Definition os_path_split (p : string) : string * string :=
  let '(head, tail) := cut_last_sep p in
  (if str_nonempty head && negb (all_sep head) then rstrip_sep head else head, tail).

Definition os_path_basename (p : string) : string := snd (cut_last_sep p).

Definition os_path_dirname (p : string) : string := fst (os_path_split p).

(** One step of the loop of [os.path.join]. *)
Definition join_step (path b : string) : string :=
  if startswith_sep b then b
  else if negb (str_nonempty path) || endswith_sep path then path ++ b
  else path ++ String sep b.

Definition os_path_join (a : string) (ps : list string) : string :=
  fold_left join_step ps a.

(** ** The file system

    A file system is a finite map from path names to the text of regular
    files, and a finite set of directory names.  Path names are compared as
    strings: there are no links, and no normalisation of [.], [..] or doubled
    separators.  The empty directory name stands for the working directory. *)

Record filesystem : Type := FileSystem {
  files : gmap string string;
  dirs : gset string
}.

Definition is_file (fs : filesystem) (p : string) : bool :=
  bool_decide (is_Some (files fs !! p)).

Definition is_dir (fs : filesystem) (p : string) : bool :=
  bool_decide (p ∈ dirs fs).

Definition os_path_exists (fs : filesystem) (p : string) : bool :=
  is_file fs p || is_dir fs p.

Definition write_file (fs : filesystem) (p text : string) : filesystem :=
  FileSystem (<[p := text]> (files fs)) (dirs fs).

(** [open(p, 'r')] followed by reading the whole file. *)
Definition open_r (fs : filesystem) (p : string) : outcome string :=
  match files fs !! p with
  | Some text => Returned text
  | None => Raised (if is_dir fs p then IsADirectoryError else FileNotFoundError)
  end.

(** The checks of [open(p, 'w')]: [None] when the file can be created or
    truncated. *)
Definition open_w_check (fs : filesystem) (p : string) : option exn :=
  if is_dir fs p || negb (str_nonempty (os_path_basename p)) then Some IsADirectoryError
  else if is_file fs (os_path_dirname p) then Some NotADirectoryError
  else if negb (str_nonempty (os_path_dirname p)) || is_dir fs (os_path_dirname p) then None
  else Some FileNotFoundError.

(** [open(p, 'w')], writing [text], closing. *)
Definition open_w (fs : filesystem) (p text : string) : outcome filesystem :=
  match open_w_check fs p with
  | Some e => Raised e
  | None => Returned (write_file fs p text)
  end.

(** [os.path.samefile] as [shutil.copyfile] calls it: two paths that lead to
    the same existing file or directory, and false when a path does not
    exist.  With path names compared as strings, two paths lead to the same
    file only when they are the same string. *)
Definition samefile (fs : filesystem) (src dst : string) : bool :=
  String.eqb src dst && os_path_exists fs src.

(** [shutil.copyfile(src, dst)]: refuses to copy a file onto itself, reads
    [src], then creates or truncates [dst]. *)
Definition copyfile (fs : filesystem) (src dst : string) : outcome filesystem :=
  if samefile fs src dst then Raised SameFileError
  else match open_r fs src with
       | Raised e => Raised e
       | Returned text => open_w fs dst text
       end.

(** ** Text files read line by line

    [open(p, 'r')] reads with universal newlines: [\r\n] and a lone [\r]
    arrive as [\n].  Iterating over the file yields one line per [\n] and one
    more for a last line that is not terminated. *)

Definition LF : ascii := Ascii.ascii_of_nat 10.
Definition CR : ascii := Ascii.ascii_of_nat 13.

Fixpoint universal_newlines (s : string) : string :=
  match s with
  | EmptyString => EmptyString
  | String c s' =>
      if Ascii.eqb c CR then
        match s' with
        | String c' s'' =>
            if Ascii.eqb c' LF then String LF (universal_newlines s'')
            else String LF (universal_newlines s')
        | EmptyString => String LF EmptyString
        end
      else String c (universal_newlines s')
  end.

Fixpoint count_lf_lines (pending : bool) (s : string) : nat :=
  match s with
  | EmptyString => if pending then 1 else 0
  | String c s' =>
      if Ascii.eqb c LF then S (count_lf_lines false s') else count_lf_lines true s'
  end.

(** [sum(1 for line in fobj)] *)
Definition count_lines (text : string) : nat :=
  count_lf_lines false (universal_newlines text).

Definition newline : string := String LF EmptyString.

(** ** Python values used by the program *)

(** [str(n)] for a non-negative integer. *)
Definition py_str (n : nat) : string := NilEmpty.string_of_uint (Nat.to_uint n).

(** [int(s)] on the strings a key event carries: a non-empty run of decimal
    digits is a number, anything else raises [ValueError].  This is [int] on
    every string of at most one character and on every run of digits; signs,
    blanks and underscores around digits, which [int] also reads, do not
    occur in [event.char]. *)
Definition py_int (s : string) : outcome nat :=
  match s with
  | EmptyString => Raised ValueError
  | _ => match NilEmpty.uint_of_string s with
         | Some d => Returned (Nat.of_uint d)
         | None => Raised ValueError
         end
  end.

(** [l[i]] with Python's negative indices. *)
Definition py_getitem {A} (l : list A) (i : Z) : outcome A :=
  let j := (if Z.ltb i 0 then i + Z.of_nat (length l) else i)%Z in
  if Z.ltb j 0 then Raised IndexError
  else match l !! Z.to_nat j with
       | Some x => Returned x
       | None => Raised IndexError
       end.

(** A [dict] from labels to lists of paths, in insertion order. *)
Definition dict : Type := list (string * list string).

Definition dict_keys (d : dict) : list string := map fst d.

Fixpoint dict_get (d : dict) (k : string) : option (list string) :=
  match d with
  | [] => None
  | (k', v) :: d' => if String.eqb k' k then Some v else dict_get d' k
  end.

(** [d[k]] *)
Definition dict_getitem (d : dict) (k : string) : outcome (list string) :=
  match dict_get d k with
  | Some v => Returned v
  | None => Raised KeyError
  end.

(** [d[k] = v]: a known key keeps its place. *)
Fixpoint dict_setitem (d : dict) (k : string) (v : list string) : dict :=
  match d with
  | [] => [(k, v)]
  | (k', v') :: d' =>
      if String.eqb k' k then (k', v) :: d' else (k', v') :: dict_setitem d' k v
  end.

(** [d[k].append(x)] *)
Definition dict_append (d : dict) (k x : string) : outcome dict :=
  match dict_getitem d k with
  | Returned v => Returned (dict_setitem d k (v ++ [x]))
  | Raised e => Raised e
  end.

(** ** The [ImageGui] object

    The widgets are kept as the values they show: the image panel holds the
    path of the displayed image, the progress label its text.  [out_dict] and
    [out_file] default to [False], which is [None] here. *)

Record ImageGui : Type := mkImageGui {
  index : nat;
  paths : list string;
  labels : list string;
  out_dict : option dict;
  out_file : option string;
  n_labels : nat;
  n_paths : nat;
  image : option string;
  progress_label : string;
  key_bindings : list string;
  master_quit : bool
}.

Record world : Type := World {
  self : ImageGui;
  disk : filesystem
}.

Definition M : Type -> Type := PyM.t world.

Definition set_index (i : nat) (g : ImageGui) : ImageGui :=
  mkImageGui i (paths g) (labels g) (out_dict g) (out_file g) (n_labels g) (n_paths g)
             (image g) (progress_label g) (key_bindings g) (master_quit g).

Definition set_out_dict (d : option dict) (g : ImageGui) : ImageGui :=
  mkImageGui (index g) (paths g) (labels g) d (out_file g) (n_labels g) (n_paths g)
             (image g) (progress_label g) (key_bindings g) (master_quit g).

Definition set_displayed (p : string) (g : ImageGui) : ImageGui :=
  mkImageGui (index g) (paths g) (labels g) (out_dict g) (out_file g) (n_labels g) (n_paths g)
             (Some p) (progress_label g) (key_bindings g) (master_quit g).

Definition set_progress_label (t : string) (g : ImageGui) : ImageGui :=
  mkImageGui (index g) (paths g) (labels g) (out_dict g) (out_file g) (n_labels g) (n_paths g)
             (image g) t (key_bindings g) (master_quit g).

Definition set_key_bindings (ks : list string) (g : ImageGui) : ImageGui :=
  mkImageGui (index g) (paths g) (labels g) (out_dict g) (out_file g) (n_labels g) (n_paths g)
             (image g) (progress_label g) ks (master_quit g).

Definition set_master_quit (g : ImageGui) : ImageGui :=
  mkImageGui (index g) (paths g) (labels g) (out_dict g) (out_file g) (n_labels g) (n_paths g)
             (image g) (progress_label g) (key_bindings g) true.

Definition on_self (f : ImageGui -> ImageGui) : M unit :=
  PyM.modify (fun w => World (f (self w)) (disk w)).

Definition on_disk (f : filesystem -> outcome filesystem) : M unit :=
  fun w => match f (disk w) with
           | Returned fs => (World (self w) fs, Returned tt)
           | Raised e => (w, Raised e)
           end.

Definition this : M ImageGui := fun w => (w, Returned (self w)).

(** Truth value of [out_dict]: [False] and the empty dict are false. *)
Definition dict_truthy (d : option dict) : bool :=
  match d with Some (_ :: _) => true | _ => false end.

(** Truth value of [out_file]: [False] and the empty string are false. *)
Definition file_truthy (f : option string) : bool :=
  match f with Some s => str_nonempty s | None => false end.

(** ["%d/%d" % (index, n_paths)] *)
Definition progress_string (i n : nat) : string := py_str i ++ "/" ++ py_str n.

(** [os.path.join(out_file, kk + '.txt')] *)
Definition manifest_path (ptf kk : string) : string := os_path_join ptf [kk ++ ".txt"].

(** The text [save] writes for one label. *)
Definition manifest_text (entries : list string) : string :=
  String.concat EmptyString (map (fun line => os_path_basename line ++ newline) entries).

Section ImageGui.

(** Whether Pillow recognises a file's content as an image. *)
Variable PIL_decodes : string -> bool.

(** The module-level name [labels]: bound by the script's main block,
    unbound when the module is only imported. *)
Variable module_labels : option (list string).

(** [_load_image]: the resized, padded picture is represented by the path
    it was read from. *)
Definition _load_image (path : string) : M string :=
  fun w => match open_r (disk w) path with
           | Raised e => (w, Raised e)
           | Returned content =>
               if PIL_decodes content then (w, Returned path)
               else (w, Raised UnidentifiedImageError)
           end.

Definition set_image (path : string) : M unit :=
  (img <- _load_image path ;;
   on_self (set_displayed img))%py.

(** [output_path] of [_copy_image] *)
Definition output_path (input_path label : string) : string :=
  let '(root, file_name) := os_path_split input_path in
  os_path_join root [label; file_name].

Definition _copy_image (input_path label : string) : M unit :=
  on_disk (fun fs => copyfile fs input_path (output_path input_path label)).

Definition _add_to_dict (output_dict : dict) (input_path label : string) : M unit :=
  (d <- PyM.lift (dict_append output_dict label input_path) ;;
   on_self (set_out_dict (Some d)))%py.

(** [_restart_from_file(labs, ptf)]: the body reads the module-level
    [labels], not its parameter [labs]. *)
Fixpoint count_manifests (fs : filesystem) (temp : list string) (tot : nat) : outcome nat :=
  match temp with
  | [] => Returned tot
  | lab :: temp' =>
      match open_r fs lab with
      | Raised e => Raised e
      | Returned text => count_manifests fs temp' (tot + count_lines text)
      end
  end.

Definition _restart_from_file (labs : list string) (ptf : string) (fs : filesystem)
  : outcome nat :=
  match module_labels with
  | None => Raised NameError
  | Some labels =>
      let temp := map (fun item => manifest_path ptf item) labels in
      count_manifests fs temp 0
  end.

Definition save : M unit :=
  (g <- this ;;
   match out_dict g with
   | None => PyM.raise AttributeError
   | Some d =>
       PyM.for_each (dict_keys d) (fun kk =>
         match out_file g with
         | None => PyM.raise TypeError
         | Some ptf =>
             entries <- PyM.lift (dict_getitem d kk) ;;
             on_disk (fun fs => open_w fs (manifest_path ptf kk) (manifest_text entries))
         end)
   end)%py.

Definition show_next_image : M unit :=
  (on_self (fun g => set_index (index g + 1) g) ;;;
   on_self (fun g => set_progress_label (progress_string (index g) (n_paths g)) g) ;;;
   g <- this ;;
   if Nat.ltb (index g) (n_paths g) then
     path <- PyM.lift (py_getitem (paths g) (Z.of_nat (index g))) ;;
     set_image path
   else
     (if file_truthy (out_file g) then save else PyM.ret tt) ;;;
     on_self set_master_quit)%py.

Definition vote (label : string) : M unit :=
  (g <- this ;;
   input_path <- PyM.lift (py_getitem (paths g) (Z.of_nat (index g))) ;;
   (* [if self.out_dict:] holds for a dict with at least one key *)
   (match out_dict g with
    | Some (e :: d) => _add_to_dict (e :: d) input_path label
    | _ => _copy_image input_path label
    end) ;;;
   show_next_image)%py.

(** A key event, with the character of the key as [event.char]. *)
Record KeyEvent : Type := { char : string }.

Definition vote_key (event : KeyEvent) : M unit :=
  (g <- this ;;
   pressed_key <- PyM.lift (py_int (char event)) ;;
   label <- PyM.lift (py_getitem (labels g) (Z.of_nat pressed_key - 1)) ;;
   vote label)%py.

(** [master.bind(str(key+1), self.vote_key) for key in range(n_labels)]:
    the patterns that are bound to [vote_key]. *)
Definition bound_keys (n : nat) : list string :=
  map (fun key => py_str (key + 1)) (seq 0 n).

(** [bind] reads a pattern that is not in angle brackets as a sequence of
    key presses, one for each character: the pattern [10] of the tenth
    label is the key [1] followed by the key [0]. *)
Definition pattern_keys (pattern : string) : list string :=
  map (fun c => String c EmptyString) (list_ascii_of_string pattern).

(** A bound sequence matches when the presses up to and including the
    current one end with it. *)
Definition sequence_matches (presses : list string) (pattern : string) : bool :=
  bool_decide (pattern_keys pattern `suffix_of` presses).

(** Whether the press of [key] runs a binding.  [recent] names what was
    pressed in the window before, keys and mouse buttons, the oldest first;
    the modifier keys, which the window system skips, are left out.  A digit
    key is named by its digit. *)
Definition binding_fires (recent : list string) (key : string) (g : ImageGui) : bool :=
  existsb (sequence_matches (recent ++ [key])%list) (key_bindings g).

(** The window's dispatch of a key press.  Every pattern is bound to
    [vote_key]: when several sequences match, the window system runs the
    handler of the longest one, hence [vote_key] once, with the event of the
    current press; when none matches nothing happens. *)
Definition key_press (recent : list string) (key : string) (event : KeyEvent) : M unit :=
  (g <- this ;;
   if binding_fires recent key g then vote_key event
   else PyM.ret tt)%py.

(** [ImageGui(master, labels, paths, out_dict, out_file)] *)
Definition __init__ (labels paths : list string)
           (out_dict : option dict) (out_file : option string)
           (fs : filesystem) : outcome ImageGui :=
  let self0 :=
    mkImageGui 0 paths labels out_dict out_file (length labels) (length paths)
               None EmptyString [] false in
  let body : M unit :=
    ((if file_truthy out_file then
        match out_file with
        | Some ptf =>
            first <- PyM.lift (py_getitem labels 0) ;;
            w <- PyM.get ;;
            if os_path_exists (disk w) (manifest_path ptf first) then
              i <- PyM.lift (_restart_from_file labels ptf (disk w)) ;;
              on_self (set_index i)
            else PyM.ret tt
        | None => PyM.ret tt
        end
      else PyM.ret tt) ;;;
     g <- this ;;
     path <- PyM.lift (py_getitem paths (Z.of_nat (index g))) ;;
     set_image path ;;;
     on_self (fun g => set_progress_label (progress_string (index g) (n_paths g)) g) ;;;
     on_self (fun g => set_key_bindings (bound_keys (n_labels g)) g))%py in
  match body (World self0 fs) with
  | (w, Returned _) => Returned (self w)
  | (_, Raised e) => Raised e
  end.

End ImageGui.

(** ** Notions used in the statements *)

(** The test of [show_next_image] that ends the session: the [else] branch
    of [if self.index < self.n_paths]. *)
Definition is_complete (g : ImageGui) : bool := negb (Nat.ltb (index g) (n_paths g)).

(** The session-state invariant. *)
Definition session_inv (g : ImageGui) : Prop :=
  n_paths g = length (paths g) /\ index g <= length (paths g).

(** The attributes of the object that no method assigns after construction. *)
Definition same_setup (g g' : ImageGui) : Prop :=
  paths g' = paths g /\ labels g' = labels g /\ out_file g' = out_file g /\
  n_labels g' = n_labels g /\ n_paths g' = n_paths g /\
  key_bindings g' = key_bindings g.

(** The index the constructor holds when it reaches
    [self.set_image(paths[self.index])]: lines 65 to 68 of the source. *)
Definition start_index (module_labels : option (list string))
           (labels : list string) (out_file : option string) (fs : filesystem)
  : outcome nat :=
  match out_file with
  | Some ptf =>
      if str_nonempty ptf then
        match py_getitem labels 0 with
        | Raised e => Raised e
        | Returned first =>
            if os_path_exists fs (manifest_path ptf first)
            then _restart_from_file module_labels labels ptf fs
            else Returned 0
        end
      else Returned 0
  | None => Returned 0
  end.

(** What the user can make the object do once the window is up. *)
Inductive operation : Type :=
| Vote (label : string)        (* a label button *)
| VoteKey (event : KeyEvent)   (* the handler of the number keys *)
| KeyPress (recent : list string) (key : string) (event : KeyEvent)
                               (* a key, bound or not, after the presses [recent] *)
| Save.                        (* the save button *)

Definition run_operation (PIL_decodes : string -> bool) (o : operation) : M unit :=
  match o with
  | Vote label => vote PIL_decodes label
  | VoteKey event => vote_key PIL_decodes event
  | KeyPress recent key event => key_press PIL_decodes recent key event
  | Save => save
  end.

(** A run of decisions, one [vote] after the other. *)
Definition votes (PIL_decodes : string -> bool) (ls : list string) : M unit :=
  PyM.for_each ls (vote PIL_decodes).

(** Whether the operation reaches [vote]. *)
Definition records_decision (o : operation) (g : ImageGui) : bool :=
  match o with
  | Vote _ | VoteKey _ => true
  | KeyPress recent key _ => binding_fires recent key g
  | Save => false
  end.

(** The event loop: callbacks run one after the other on the same object,
    and an exception that leaves a callback is reported by the window system
    and does not stop the loop. *)
Definition mainloop (PIL_decodes : string -> bool) (ops : list operation) (w : world)
  : world :=
  fold_left (fun w o => fst (run_operation PIL_decodes o w)) ops w.

(** The file system after the loop of [save] has written the manifests of
    the keys [ks]. *)
Definition write_manifests (ptf : string) (d : dict) (ks : list string)
           (fs : filesystem) : filesystem :=
  fold_left (fun fs kk =>
               write_file fs (manifest_path ptf kk)
                          (manifest_text (default [] (dict_get d kk))))
            ks fs.

(** A name without line breaks. *)
Fixpoint no_line_break (s : string) : bool :=
  match s with
  | EmptyString => true
  | String c s' => negb (Ascii.eqb c LF) && negb (Ascii.eqb c CR) && no_line_break s'
  end.

(** ** A small session to run

    Two labels, three images in the folder [in], every file a picture. *)

Definition every_file_decodes (content : string) : bool := true.

Definition demo_labels : list string := ["cat"; "dog"].

Definition demo_paths : list string := ["in/a.jpg"; "in/b.jpg"; "in/c.jpg"].

Definition demo_dict : dict := [("cat", []); ("dog", [])].

Definition demo_files : gmap string string :=
  list_to_map [("in/a.jpg", "A"); ("in/b.jpg", "B"); ("in/c.jpg", "C")].

(** The folder with the label folders made, before any decision. *)
Definition demo_fs : filesystem :=
  FileSystem demo_files {[ "in"; "in/cat"; "in/dog"; "in/old" ]}.

(** The same folder after an earlier run has put [a.jpg] under [cat]. *)
Definition sorted_once_fs : filesystem :=
  FileSystem (<["in/cat/a.jpg" := "A"]> demo_files) (dirs demo_fs).

(** The folder with the manifests of two earlier decisions. *)
Definition resumed_fs : filesystem :=
  FileSystem (<["in/cat.txt" := "a.jpg" ++ newline]>
              (<["in/dog.txt" := "b.jpg" ++ newline]> demo_files))
             (dirs demo_fs).

(** The folder with the manifest of the first label only. *)
Definition half_saved_fs : filesystem :=
  FileSystem (<["in/cat.txt" := "a.jpg" ++ newline]> demo_files) (dirs demo_fs).

(** The folder with the manifest of the second label only. *)
Definition other_half_fs : filesystem :=
  FileSystem (<["in/dog.txt" := "b.jpg" ++ newline]> demo_files) (dirs demo_fs).

(** The object in relocate mode, as [ImageGui(root, labels, paths)] builds it. *)
Definition relocate_session : ImageGui :=
  mkImageGui 0 demo_paths demo_labels None None 2 3 (Some "in/a.jpg") "0/3"
             ["1"; "2"] false.

(** The object in manifest mode, as the script builds it. *)
Definition manifest_session : ImageGui :=
  mkImageGui 0 demo_paths demo_labels (Some demo_dict) (Some "in") 2 3
             (Some "in/a.jpg") "0/3" ["1"; "2"] false.

(** The manifest-mode object after the votes cat, dog, cat. *)
Definition manifest_done : world :=
  fst (votes every_file_decodes ["cat"; "dog"; "cat"] (World manifest_session demo_fs)).

(** The folder with a stale file where the copy of [a.jpg] under [cat] goes. *)
Definition stale_copy_fs : filesystem :=
  FileSystem (<["in/cat/a.jpg" := "OLD"]> demo_files) (dirs demo_fs).

(** ** The rest of the module *)

(** *** [_expand_to_square]: the geometry of the padding

    An image is its size; a padded image is the size of the canvas and the
    place of the original picture on it. *)

Record padded : Type := Padded {
  canvas : Z * Z;
  origin : Z * Z
}.

(** The bounds of a C [int]: Pillow's core takes sizes and boxes as C
    integers, and an integer outside the bounds raises [OverflowError]. *)
Definition INT_MAX : Z := 2147483647.

Definition fits_int (z : Z) : bool := (- INT_MAX - 1 <=? z)%Z && (z <=? INT_MAX)%Z.

Section Padding.

(** Whether Pillow gets the memory of a canvas of the given size: the mode
    of the picture and the machine decide. *)
Variable Image_allocates : Z * Z -> bool.

(** [Image.new(mode, size, color)]: a negative side is refused, then the
    size goes to the core, which allocates the canvas. *)
Definition Image_new (size : Z * Z) : outcome (Z * Z) :=
  let '(width, height) := size in
  if (width <? 0)%Z || (height <? 0)%Z then Raised ValueError
  else if negb (fits_int width && fits_int height) then Raised OverflowError
  else if Image_allocates size then Returned size
  else Raised MemoryError.

(** [ImageOps.expand(img, (left, top, right, bottom))]: a new image of the
    enlarged size, with the picture pasted in the box that starts at
    [(left, top)] and has the size of the picture; parts of the box outside
    the canvas are cut off. *)
Definition ImageOps_expand (img : Z * Z) (border : Z * Z * Z * Z) : outcome padded :=
  let '(b_left, b_top, b_right, b_bottom) := border in
  let width := (b_left + fst img + b_right)%Z in
  let height := (b_top + snd img + b_bottom)%Z in
  match Image_new (width, height) with
  | Raised e => Raised e
  | Returned out =>
      if fits_int b_left && fits_int b_top
         && fits_int (b_left + fst img) && fits_int (b_top + snd img)
      then Returned (Padded out (b_left, b_top))
      else Raised OverflowError
  end.

(** [//] on integers is the division that rounds down, as [Z.div] does for
    the divisor 2. *)
Definition _expand_to_square (img size : Z * Z) : outcome padded :=
  let delta_w := (fst size - fst img)%Z in
  let delta_h := (snd size - snd img)%Z in
  let pad := ((delta_w / 2)%Z, (delta_h / 2)%Z,
              (delta_w - delta_w / 2)%Z, (delta_h - delta_h / 2)%Z) in
  ImageOps_expand img pad.

End Padding.

(** *** Strings of the script *)

(** [s.endswith(suffix)] *)
Fixpoint endswith (s suffix : string) : bool :=
  String.eqb s suffix ||
  match s with
  | EmptyString => false
  | String _ s' => endswith s' suffix
  end.

(** [list(ff)]: the lines of a text that has gone through the translation
    of line ends, each with its line feed. *)
Fixpoint lines_keepends (s : string) : list string :=
  match s with
  | EmptyString => []
  | String c s' =>
      if Ascii.eqb c LF then String c EmptyString :: lines_keepends s'
      else match lines_keepends s' with
           | [] => [String c EmptyString]
           | line :: rest => String c line :: rest
           end
  end.

Definition readlines (text : string) : list string :=
  lines_keepends (universal_newlines text).

(** [c.isspace()] for a character below 256. *)
Definition py_isspace (c : ascii) : bool :=
  let n := nat_of_ascii c in
  (Nat.leb 9 n && Nat.leb n 13) || (Nat.leb 28 n && Nat.leb n 32)
  || Nat.eqb n 133 || Nat.eqb n 160.

Fixpoint py_lstrip (s : string) : string :=
  match s with
  | EmptyString => EmptyString
  | String c s' => if py_isspace c then py_lstrip s' else s
  end.

Fixpoint py_rstrip (s : string) : string :=
  match s with
  | EmptyString => EmptyString
  | String c s' =>
      match py_rstrip s' with
      | EmptyString => if py_isspace c then EmptyString else String c EmptyString
      | r => String c r
      end
  end.

(** [s.strip()] *)
Definition py_strip (s : string) : string := py_rstrip (py_lstrip s).

(** *** The main block of the script *)

(** [choices=['copy', 'txt']] *)
Inductive output_choice : Type := output_copy | output_txt.

(** What [parser.parse_args()] returns. *)
Record Namespace : Type := {
  args_folder : string;
  args_labels : list string;
  args_textfile : option string;
  args_output : output_choice;
  args_image_folder : option string
}.

(** [outdict = dict()] and [outdict[label] = []] for every label. *)
Definition fresh_outdict (labels : list string) : dict :=
  fold_left (fun d label => dict_setitem d label []) labels [].

(** The image names a directory listing keeps. *)
Definition is_image_name (file : string) : bool :=
  endswith file ".jpeg" || endswith file ".tiff" || endswith file ".jpg".

Section Script.

Variable PIL_decodes : string -> bool.

(** [os.listdir]: the names in a directory, in the order the system gives
    them. *)
Variable os_listdir : filesystem -> string -> outcome (list string).

(** [os.makedirs] *)
Variable os_makedirs : filesystem -> string -> outcome filesystem.

Definition make_folder (directory : string) (fs : filesystem) : outcome filesystem :=
  if os_path_exists fs directory then Returned fs else os_makedirs fs directory.

(** Lines 284 to 286: a folder for every label. *)
Definition make_label_folders (input_folder : string) (labels : list string)
  : PyM.t filesystem unit :=
  PyM.for_each labels (fun label fs =>
    match make_folder (os_path_join input_folder [label]) fs with
    | Returned fs' => (fs', Returned tt)
    | Raised e => (fs, Raised e)
    end).

(** Lines 297 to 309: the image paths, from the listing of the folder or
    from the lines of the list file. *)
Definition collect_paths (input_folder : string) (txt imgfold : option string)
           (fs : filesystem) : outcome (list string) :=
  match txt with
  | Some (String c name) =>
      match open_r fs (os_path_join input_folder [String c name]) with
      | Raised e => Raised e
      | Returned text =>
          match readlines text, imgfold with
          | [], _ => Returned []
          | _ :: _, None => Raised TypeError
          | lines, Some dir =>
              Returned (map (fun line => os_path_join dir [py_strip line]) lines)
          end
      end
  | _ =>
      match os_listdir fs input_folder with
      | Raised e => Raised e
      | Returned names =>
          Returned (map (fun file => os_path_join input_folder [file])
                        (filter (fun file => is_image_name file = true) names))
      end
  end.

(** The main block, from the parsed arguments to the construction of the
    [ImageGui] object; [tk.Tk()] and [root.mainloop()] are the window
    system's.  The state is the file system, which the label folders
    change.  For the local name [outdict], [None] is the name not being
    bound. *)
Definition main (args : Namespace) : PyM.t filesystem ImageGui :=
  let input_folder := args_folder args in
  let labels := args_labels args in
  let oput := args_output args in
  let txt := args_textfile args in
  let imgfold := args_image_folder args in
  (outdict <- match oput with
              | output_copy =>
                  make_label_folders input_folder labels ;;; PyM.ret None
              | output_txt => PyM.ret (Some (fresh_outdict labels))
              end ;;
   fs <- PyM.get ;;
   paths <- PyM.lift (collect_paths input_folder txt imgfold fs) ;;
   match outdict with
   | None => PyM.raise NameError
   | Some (e :: d) =>
       PyM.lift (__init__ PIL_decodes (Some labels) labels paths
                          (Some (e :: d)) (Some input_folder) fs)
   | Some [] =>
       PyM.lift (__init__ PIL_decodes (Some labels) labels paths None None fs)
   end)%py.

End Script.

(** ** More notions used in the statements *)

(** The images of [ps] that the decisions [ls] gave to the label [k], in the
    order of the decisions. *)
Fixpoint decided_for (k : string) (ps ls : list string) : list string :=
  match ps, ls with
  | p :: ps', l :: ls' =>
      if String.eqb l k then p :: decided_for k ps' ls' else decided_for k ps' ls'
  | _, _ => []
  end.

(** The number of entries of a manifest dict. *)
Definition dict_total (d : dict) : nat :=
  sum_list (map (fun kv => length (snd kv)) d).

(** The progress label shows the index over the number of images, and the
    window is asked to quit only when the session is complete. *)
Definition display_inv (g : ImageGui) : Prop :=
  progress_label g = progress_string (index g) (n_paths g) /\
  (master_quit g = true -> is_complete g = true).

(** Whether a name contains a separator. *)
Fixpoint has_sep (s : string) : bool :=
  match s with
  | EmptyString => false
  | String c s' => is_sep c || has_sep s'
  end.

(** A key character that is not a decimal digit. *)
Definition not_digit (c : ascii) : bool :=
  Nat.ltb (nat_of_ascii c) 48 || Nat.ltb 57 (nat_of_ascii c).

(** ** More of the small session *)

(** The manifest-mode object before the last image, after the votes cat and
    dog. *)
Definition manifest_last : world :=
  fst (votes every_file_decodes ["cat"; "dog"] (World manifest_session demo_fs)).

(** The object that the constructor builds over [resumed_fs]: it resumes at
    the third image with the empty lists of a new run. *)
Definition resumed_session : ImageGui :=
  mkImageGui 2 demo_paths demo_labels (Some demo_dict) (Some "in") 2 3
             (Some "in/c.jpg") "2/3" ["1"; "2"] false.

(** The folder without the second image. *)
Definition missing_b_fs : filesystem :=
  FileSystem (delete "in/b.jpg" demo_files) (dirs demo_fs).

(** The folder with a directory where the manifest of [dog] goes. *)
Definition blocked_dog_fs : filesystem :=
  FileSystem demo_files ({[ "in/dog.txt" ]} ∪ dirs demo_fs).

(** The folder with a list file of three lines, the second one blank. *)
Definition listed_fs : filesystem :=
  FileSystem (<["in/list.txt" := "a.jpg" ++ newline ++ newline ++ " b.jpg" ++ newline]>
              demo_files)
             (dirs demo_fs).

(** A listing of the folder [in]. *)
Definition demo_listdir (fs : filesystem) (directory : string) : outcome (list string) :=
  if String.eqb directory "in"
  then Returned ["b.jpg"; "notes.txt"; "a.jpg"; "c.JPG"; "cat"]
  else Raised FileNotFoundError.

(** A [makedirs] that makes the directory. *)
Definition demo_makedirs (fs : filesystem) (directory : string) : outcome filesystem :=
  Returned (FileSystem (files fs) ({[ directory ]} ∪ dirs fs)).

Definition demo_args (output : output_choice) : Namespace :=
  {| args_folder := "in"; args_labels := demo_labels; args_textfile := None;
     args_output := output; args_image_folder := None |}.


(** An image whose file name has a line feed in it, alone in its folder and
    given to [cat]. *)
Definition two_line_name : string := "in/a" ++ newline ++ "b.jpg".

Definition two_line_fs : filesystem :=
  FileSystem {[ two_line_name := "A" ]} {[ "in" ]}.

Definition two_line_session : ImageGui :=
  mkImageGui 0 [two_line_name] ["cat"] (Some [("cat", [])]) (Some "in") 1 1
             (Some two_line_name) "0/1" ["1"] false.

Definition two_line_done : world :=
  fst (vote every_file_decodes "cat" (World two_line_session two_line_fs)).



(** A machine with memory for every canvas. *)
Definition always_allocates (size : Z * Z) : bool := true.

(** * Properties *)

(** ** The helpers on small inputs *)

Example split_plain : os_path_split "in/a.jpg" = ("in", "a.jpg").
Proof. reflexivity. Qed.
Example split_root : os_path_split "/a.jpg" = ("/", "a.jpg").
Proof. reflexivity. Qed.
Example split_slashes : os_path_split "in//a.jpg" = ("in", "a.jpg").
Proof. reflexivity. Qed.
Example split_bare : os_path_split "a.jpg" = (EmptyString, "a.jpg").
Proof. reflexivity. Qed.
Example join_three : os_path_join "in" ["cat"; "a.jpg"] = "in/cat/a.jpg".
Proof. reflexivity. Qed.
Example join_absolute : os_path_join "in" ["/x"; "a.jpg"] = "/x/a.jpg".
Proof. reflexivity. Qed.
Example join_empty_label : os_path_join "in" [EmptyString; "a.jpg"] = "in/a.jpg".
Proof. reflexivity. Qed.
Example count_lines_two : count_lines ("a.jpg" ++ newline ++ "c.jpg" ++ newline) = 2.
Proof. reflexivity. Qed.
Example count_lines_open_end : count_lines ("a.jpg" ++ newline ++ "c.jpg") = 2.
Proof. reflexivity. Qed.
Example count_lines_crlf :
  count_lines ("a.jpg" ++ String CR newline ++ "c.jpg" ++ String CR EmptyString) = 2.
Proof. reflexivity. Qed.
Example getitem_last : py_getitem ["cat"; "dog"] (-1) = Returned "dog".
Proof. reflexivity. Qed.
Example getitem_out : py_getitem ["cat"; "dog"] 2 = Raised IndexError.
Proof. reflexivity. Qed.
Example int_of_3 : py_int "3" = Returned 3.
Proof. reflexivity. Qed.
Example int_of_letter : py_int "a" = Raised ValueError.
Proof. reflexivity. Qed.
Example str_of_12 : py_str 12 = "12".
Proof. reflexivity. Qed.

(** ** Running computations *)

Lemma bind_run {S A B} (m : PyM.t S A) (k : A -> PyM.t S B) s :
  PyM.bind m k s =
  match m s with
  | (s', Returned a) => k a s'
  | (s', Raised e) => (s', Raised e)
  end.
Proof. reflexivity. Qed.

(** A loop whose body leaves a projection of the state alone leaves it alone. *)
Lemma for_each_preserves {S A B} (proj : S -> B) (body : A -> PyM.t S unit) :
  (forall x s, proj (fst (body x s)) = proj s) ->
  forall l s, proj (fst (PyM.for_each l body s)) = proj s.
Proof.
  intros Hbody l. induction l as [|x l IH]; intros s; simpl; [done|].
  rewrite bind_run. specialize (Hbody x s).
  destruct (body x s) as [s1 [[]|e]]; simpl in *; [|done].
  by rewrite IH.
Qed.

Ltac py_step :=
  cbv [PyM.bind PyM.ret PyM.raise PyM.get PyM.lift PyM.modify this on_self];
  cbn [self disk fst snd set_progress_label set_index set_out_dict set_displayed
       set_key_bindings set_master_quit index paths labels out_dict out_file
       n_labels n_paths image progress_label key_bindings master_quit] in *.

(** ** Python indexing *)

Lemma py_getitem_nat {A} (l : list A) (i : nat) :
  py_getitem l (Z.of_nat i) =
  match l !! i with Some x => Returned x | None => Raised IndexError end.
Proof.
  unfold py_getitem.
  destruct (Z.ltb_spec (Z.of_nat i) 0) as [|_]; [lia|].
  destruct (Z.ltb_spec (Z.of_nat i) 0) as [|_]; [lia|].
  by rewrite Nat2Z.id.
Qed.

Lemma py_getitem_pred {A} (l : list A) (k : nat) :
  0 < k ->
  py_getitem l (Z.of_nat k - 1) =
  match l !! (k - 1) with Some x => Returned x | None => Raised IndexError end.
Proof.
  intros Hk. replace (Z.of_nat k - 1)%Z with (Z.of_nat (k - 1)) by lia.
  apply py_getitem_nat.
Qed.

Lemma py_getitem_raises {A} (l : list A) i e :
  py_getitem l i = Raised e -> e = IndexError.
Proof. unfold py_getitem. repeat case_match; congruence. Qed.

Lemma py_int_raises s e : py_int s = Raised e -> e = ValueError.
Proof. unfold py_int. repeat case_match; congruence. Qed.

(** ** What the methods leave alone *)

Ltac gui_simpl :=
  cbn [self disk fst snd set_progress_label set_index set_out_dict set_displayed
       set_key_bindings set_master_quit index paths labels out_dict out_file
       n_labels n_paths image progress_label key_bindings master_quit] in *.

Section Frames.
Variable PIL_decodes : string -> bool.

Lemma same_setup_refl g : same_setup g g.
Proof. by repeat split. Qed.

Lemma same_setup_trans g1 g2 g3 :
  same_setup g1 g2 -> same_setup g2 g3 -> same_setup g1 g3.
Proof. unfold same_setup. intuition congruence. Qed.

Lemma set_image_run path w :
  set_image PIL_decodes path w =
  match open_r (disk w) path with
  | Raised e => (w, Raised e)
  | Returned content =>
      if PIL_decodes content
      then (World (set_displayed path (self w)) (disk w), Returned tt)
      else (w, Raised UnidentifiedImageError)
  end.
Proof.
  unfold set_image, _load_image. rewrite bind_run.
  destruct (open_r (disk w) path); [|done].
  by destruct (PIL_decodes a).
Qed.

Lemma save_self w : self (fst (save w)) = self w.
Proof.
  unfold save, this. rewrite bind_run.
  destruct (out_dict (self w)) as [d|]; [|done].
  apply (for_each_preserves self). intros kk s.
  destruct (out_file (self w)) as [ptf|]; [|done].
  rewrite bind_run. unfold PyM.lift.
  destruct (dict_getitem d kk); [|done].
  unfold on_disk. by destruct (open_w _ _ _).
Qed.

(** [save] writes nothing when the object holds no manifest entries. *)
Lemma save_disk_relocate w :
  dict_truthy (out_dict (self w)) = false -> disk (fst (save w)) = disk w.
Proof.
  unfold save, this. rewrite bind_run.
  destruct (out_dict (self w)) as [[|]|]; done.
Qed.

(** [show_next_image] always moves the index by one, whatever happens
    afterwards. *)
Lemma show_next_image_spec w :
  let r := show_next_image PIL_decodes w in
  index (self (fst r)) = index (self w) + 1 /\
  same_setup (self w) (self (fst r)) /\
  out_dict (self (fst r)) = out_dict (self w) /\
  (dict_truthy (out_dict (self w)) = false -> disk (fst r) = disk w).
Proof.
  unfold show_next_image, on_self, PyM.modify, this.
  rewrite !bind_run. destruct w as [g fs]. gui_simpl.
  destruct (Nat.ltb (index g + 1) (n_paths g)).
  - rewrite bind_run. unfold PyM.lift.
    destruct (py_getitem _ _) as [path|e];
      [|by repeat split].
    rewrite set_image_run. gui_simpl.
    destruct (open_r fs path) as [content|e]; [|by repeat split].
    destruct (PIL_decodes content); by repeat split.
  - rewrite bind_run.
    set (w1 := World _ fs).
    destruct (file_truthy (out_file g)).
    + pose proof (save_self w1) as Hs. pose proof (save_disk_relocate w1) as Hd.
      destruct (save w1) as [w2 [[]|e]]; gui_simpl;
        rewrite Hs; subst w1; by repeat split.
    + by repeat split.
Qed.
End Frames.

(** ** One decision *)

Section Vote.
Variable PIL_decodes : string -> bool.

(** [vote] unfolded: the image look-up, the persistence step of the mode,
    then [show_next_image]. *)
Lemma vote_run label w :
  vote PIL_decodes label w =
  match paths (self w) !! index (self w) with
  | None => (w, Raised IndexError)
  | Some input_path =>
      match out_dict (self w) with
      | Some (e :: d) =>
          match dict_append (e :: d) label input_path with
          | Returned d' =>
              show_next_image PIL_decodes
                (World (set_out_dict (Some d') (self w)) (disk w))
          | Raised err => (w, Raised err)
          end
      | _ =>
          match copyfile (disk w) input_path (output_path input_path label) with
          | Returned fs' => show_next_image PIL_decodes (World (self w) fs')
          | Raised err => (w, Raised err)
          end
      end
  end.
Proof.
  unfold vote, this. rewrite !bind_run. unfold PyM.lift.
  rewrite py_getitem_nat.
  destruct (paths (self w) !! index (self w)) as [p|]; [|done].
  rewrite bind_run.
  destruct (out_dict (self w)) as [[|e d]|].
  - unfold _copy_image, on_disk. by destruct (copyfile _ _ _).
  - unfold _add_to_dict. rewrite bind_run. unfold PyM.lift.
    by destruct (dict_append _ _ _).
  - unfold _copy_image, on_disk. by destruct (copyfile _ _ _).
Qed.

(** The effect of one call of [vote] on the index: either nothing at all
    happened and an exception came out, or the index moved by exactly one
    from a position inside the image list. *)
Lemma vote_spec label w :
  same_setup (self w) (self (fst (vote PIL_decodes label w))) /\
  ((fst (vote PIL_decodes label w) = w /\
    returns (snd (vote PIL_decodes label w)) = false) \/
   (index (self (fst (vote PIL_decodes label w))) = index (self w) + 1 /\
    index (self w) < length (paths (self w)))).
Proof.
  rewrite vote_run.
  destruct (paths (self w) !! index (self w)) as [p|] eqn:Hp;
    [|split; [apply same_setup_refl | by left]].
  apply lookup_lt_Some in Hp.
  destruct (out_dict (self w)) as [[|e d]|] eqn:Hd.
  1,3: destruct (copyfile _ _ _) as [fs'|err];
    [|split; [apply same_setup_refl | by left]];
    pose proof (show_next_image_spec PIL_decodes (World (self w) fs')) as (Hi & Hs & _);
    gui_simpl; split; [done | right; by rewrite Hi].
  destruct (dict_append _ _ _) as [d'|err];
    [|split; [apply same_setup_refl | by left]].
  pose proof (show_next_image_spec PIL_decodes
                (World (set_out_dict (Some d') (self w)) (disk w))) as (Hi & Hs & _).
  gui_simpl. split; [done | right; by rewrite Hi].
Qed.

Lemma vote_returns label w w' :
  vote PIL_decodes label w = (w', Returned tt) ->
  index (self w') = index (self w) + 1 /\
  index (self w) < length (paths (self w)) /\
  same_setup (self w) (self w').
Proof.
  intros Hv. pose proof (vote_spec label w) as (Hs & Hi).
  rewrite Hv in Hs, Hi. cbn [fst snd returns] in *.
  destruct Hi as [[_ ?]|[? ?]]; done.
Qed.

Lemma vote_key_run event w :
  vote_key PIL_decodes event w =
  match py_int (char event) with
  | Raised e => (w, Raised e)
  | Returned pressed_key =>
      match py_getitem (labels (self w)) (Z.of_nat pressed_key - 1) with
      | Raised e => (w, Raised e)
      | Returned label => vote PIL_decodes label w
      end
  end.
Proof.
  unfold vote_key, this. rewrite !bind_run. unfold PyM.lift.
  destruct (py_int _); [|done]. rewrite bind_run.
  by destruct (py_getitem _ _).
Qed.

Lemma key_press_run recent key event w :
  key_press PIL_decodes recent key event w =
  if binding_fires recent key (self w)
  then vote_key PIL_decodes event w else (w, Returned tt).
Proof.
  unfold key_press, this. rewrite bind_run. by destruct (binding_fires _ _ _).
Qed.
End Vote.

(** ** Construction *)

Section Init.
Variable PIL_decodes : string -> bool.
Variable module_labels : option (list string).

Lemma init_run lbls pths odict ofile fs :
  __init__ PIL_decodes module_labels lbls pths odict ofile fs =
  match start_index module_labels lbls ofile fs with
  | Raised e => Raised e
  | Returned i =>
      match pths !! i with
      | None => Raised IndexError
      | Some p =>
          match open_r fs p with
          | Raised e => Raised e
          | Returned content =>
              if PIL_decodes content then
                Returned (mkImageGui i pths lbls odict ofile (length lbls) (length pths)
                            (Some p) (progress_string i (length pths))
                            (bound_keys (length lbls)) false)
              else Raised UnidentifiedImageError
          end
      end
  end.
Proof.
  unfold __init__, start_index, file_truthy.
  destruct ofile as [ptf|]; [destruct (str_nonempty ptf)|].
  2,3: py_step; rewrite py_getitem_nat;
    destruct (pths !! 0) as [p|]; [|done];
    py_step; rewrite set_image_run; gui_simpl;
    destruct (open_r fs p) as [content|]; [|done];
    by destruct (PIL_decodes content).
  py_step.
  destruct (py_getitem lbls 0) as [first|e]; [|done].
  destruct (os_path_exists fs (manifest_path ptf first)).
  - destruct (_restart_from_file _ _ _ _) as [i|e]; py_step; [|done].
    rewrite py_getitem_nat.
    destruct (pths !! i) as [p|]; [|done].
    py_step. rewrite set_image_run; gui_simpl.
    destruct (open_r fs p) as [content|]; [|done].
    by destruct (PIL_decodes content).
  - py_step. rewrite py_getitem_nat.
    destruct (pths !! 0) as [p|]; [|done].
    py_step. rewrite set_image_run; gui_simpl.
    destruct (open_r fs p) as [content|]; [|done].
    by destruct (PIL_decodes content).
Qed.

(** What a constructed object looks like. *)
Lemma init_returned lbls pths odict ofile fs g :
  __init__ PIL_decodes module_labels lbls pths odict ofile fs = Returned g ->
  start_index module_labels lbls ofile fs = Returned (index g) /\
  index g < length pths /\
  paths g = pths /\ labels g = lbls /\
  out_dict g = odict /\ out_file g = ofile /\
  n_paths g = length pths /\ n_labels g = length lbls /\
  key_bindings g = bound_keys (length lbls) /\ master_quit g = false.
Proof.
  rewrite init_run.
  destruct (start_index _ _ _ _) as [i|]; [|done].
  destruct (pths !! i) as [p|] eqn:Hp; [|done].
  apply lookup_lt_Some in Hp.
  destruct (open_r fs p) as [content|]; [|done].
  destruct (PIL_decodes content); [|done].
  intros [= <-]. by repeat split.
Qed.
End Init.

(** ** The index along a session *)

Section Session.
Variable PIL_decodes : string -> bool.

Lemma votes_returned ls : forall w w',
  votes PIL_decodes ls w = (w', Returned tt) ->
  index (self w') = index (self w) + length ls /\
  same_setup (self w) (self w') /\
  (ls <> [] -> index (self w') <= length (paths (self w))).
Proof.
  induction ls as [|l ls IH]; intros w w'; unfold votes; cbn [PyM.for_each].
  - intros [= <-]. cbn [length]. split; [lia|]. split; [apply same_setup_refl|done].
  - rewrite bind_run.
    destruct (vote PIL_decodes l w) as [w1 [[]|e]] eqn:Hv; [|done].
    intros Hrest. apply vote_returns in Hv as (Hi & Hlt & Hs).
    apply IH in Hrest as (Hi' & Hs' & Hle).
    cbn [length]. split; [lia|]. split; [by eapply same_setup_trans|].
    intros _. destruct ls as [|l' ls'].
    + cbn [length] in Hi'. lia.
    + destruct Hs as (Hp & _). rewrite <- Hp. by apply Hle.
Qed.

Lemma is_complete_iff g :
  session_inv g -> is_complete g = true <-> index g = length (paths g).
Proof.
  intros [Hn Hle]. unfold is_complete. rewrite Hn.
  destruct (Nat.ltb_spec (index g) (length (paths g))); cbn; split; (lia || done).
Qed.

(** C1: after N decisions that [vote] recorded, the index is N plus the
    index the session started at (0 for a fresh session), and the session
    is complete exactly when that is the number of images. *)
Theorem index_after_decisions
        module_labels lbls pths odict ofile fs0 g fs ls w' :
  __init__ PIL_decodes module_labels lbls pths odict ofile fs0 = Returned g ->
  votes PIL_decodes ls (World g fs) = (w', Returned tt) ->
  index (self w') = index g + length ls /\
  (is_complete (self w') = true <-> index (self w') = length pths) /\
  (is_complete (self w') = true <-> index g + length ls = length pths) /\
  (index g = 0 ->
   index (self w') = length ls /\
   (is_complete (self w') = true <-> length ls = length pths)).
Proof.
  intros Hinit Hvotes.
  apply init_returned in Hinit as (_ & Hlt & Hp & _ & _ & _ & Hn & _).
  apply votes_returned in Hvotes as (Hi & Hs & Hle). gui_simpl.
  destruct Hs as (Hp' & _ & _ & _ & Hn' & _).
  assert (session_inv (self w')) as Hinv.
  { split; [congruence|]. rewrite Hp', Hp.
    destruct ls as [|l ls]; [cbn [length] in Hi; lia|].
    rewrite Hp in Hle. by apply Hle. }
  pose proof (is_complete_iff _ Hinv) as Hc. rewrite Hp', Hp in Hc.
  split; [done|]. split; [done|]. split; [by rewrite Hc, Hi|].
  intros H0. split; [lia|]. rewrite Hc, Hi. lia.
Qed.

(** C2: when the persistence step of a decision raises, [vote] raises the
    same exception and leaves the object and the file system as they
    were; in particular the index has not moved. *)
Theorem vote_aborts_on_persistence_error label w input_path err :
  paths (self w) !! index (self w) = Some input_path ->
  (dict_truthy (out_dict (self w)) = false /\
   copyfile (disk w) input_path (output_path input_path label) = Raised err)
  \/
  (exists d, out_dict (self w) = Some d /\ dict_truthy (Some d) = true /\
             dict_append d label input_path = Raised err) ->
  vote PIL_decodes label w = (w, Raised err) /\
  index (self (fst (vote PIL_decodes label w))) = index (self w).
Proof.
  intros Hp Hfail. rewrite vote_run, Hp.
  destruct Hfail as [[Hmode Hcopy]|(d & Hd & Hmode & Happ)].
  - destruct (out_dict (self w)) as [[|e d]|]; [|done|]; by rewrite Hcopy.
  - rewrite Hd. destruct d as [|e d]; [done|]. by rewrite Happ.
Qed.

(** The converse reading: a call of [vote] that did not move the index
    changed nothing and raised. *)
Lemma vote_index_unchanged label w :
  index (self (fst (vote PIL_decodes label w))) = index (self w) ->
  fst (vote PIL_decodes label w) = w /\
  returns (snd (vote PIL_decodes label w)) = false.
Proof.
  intros Hi. pose proof (vote_spec PIL_decodes label w) as (_ & [H|[H _]]); [done|lia].
Qed.

Lemma run_operation_spec o w :
  same_setup (self w) (self (fst (run_operation PIL_decodes o w))) /\
  ((index (self (fst (run_operation PIL_decodes o w))) = index (self w) /\
    (records_decision o (self w) = true ->
     returns (snd (run_operation PIL_decodes o w)) = false)) \/
   (index (self (fst (run_operation PIL_decodes o w))) = index (self w) + 1 /\
    index (self w) < length (paths (self w)) /\
    records_decision o (self w) = true)).
Proof.
  assert (forall m : M unit,
    (m w = (w, Raised IndexError) \/ m w = (w, Raised ValueError) \/
     exists label, m w = vote PIL_decodes label w) ->
    same_setup (self w) (self (fst (m w))) /\
    ((index (self (fst (m w))) = index (self w) /\ (true = true -> returns (snd (m w)) = false)) \/
     (index (self (fst (m w))) = index (self w) + 1 /\
      index (self w) < length (paths (self w)) /\ true = true))) as Hvote.
  { intros m [->|[->|[label ->]]];
      [split; [apply same_setup_refl | by left]..|].
    destruct (vote_spec PIL_decodes label w) as (Hs & [[Hw Hr]|[Hi Hlt]]).
    - split; [done|]. left. by rewrite Hw.
    - split; [done|]. by right. }
  assert (forall event,
    vote_key PIL_decodes event w = (w, Raised IndexError) \/
    vote_key PIL_decodes event w = (w, Raised ValueError) \/
    exists label, vote_key PIL_decodes event w = vote PIL_decodes label w) as Hkey.
  { intros event. rewrite vote_key_run.
    destruct (py_int _) as [k|e] eqn:Hk;
      [|apply py_int_raises in Hk as ->; eauto].
    destruct (py_getitem _ _) as [label|e] eqn:Hl;
      [|apply py_getitem_raises in Hl as ->]; eauto. }
  destruct o as [label|event|recent key event|]; cbn [run_operation records_decision].
  - apply Hvote. eauto.
  - apply Hvote, Hkey.
  - rewrite key_press_run. destruct (binding_fires recent key (self w)).
    + apply Hvote, Hkey.
    + split; [apply same_setup_refl | by left].
  - rewrite save_self. split; [apply same_setup_refl | by left].
Qed.

Lemma run_operation_inv o w :
  session_inv (self w) -> session_inv (self (fst (run_operation PIL_decodes o w))).
Proof.
  intros [Hn Hle].
  pose proof (run_operation_spec o w) as ((Hp & _ & _ & _ & Hn' & _) & Hi).
  unfold session_inv. rewrite Hp, Hn'. split; [done|].
  destruct Hi as [[-> _]|(-> & ? & _)]; lia.
Qed.

Lemma mainloop_inv ops : forall w,
  session_inv (self w) ->
  session_inv (self (mainloop PIL_decodes ops w)) /\
  index (self w) <= index (self (mainloop PIL_decodes ops w)) /\
  paths (self (mainloop PIL_decodes ops w)) = paths (self w).
Proof.
  induction ops as [|o ops IH]; intros w Hinv; cbn [mainloop fold_left]; [done|].
  pose proof (run_operation_inv o w Hinv) as Hinv1.
  pose proof (run_operation_spec o w) as ((Hp & _) & Hi).
  destruct (IH _ Hinv1) as (Hinv2 & Hle & Hp2).
  fold (mainloop PIL_decodes ops (run_operation PIL_decodes o w).1).
  split; [done|]. split; [|congruence].
  destruct Hi as [[Hi _]|(Hi & _)]; lia.
Qed.
End Session.

Section Invariant.
Variable PIL_decodes : string -> bool.
Variable module_labels : option (list string).

Lemma start_index_cases lbls ofile fs i :
  start_index module_labels lbls ofile fs = Returned i ->
  i = 0 \/
  exists ptf, ofile = Some ptf /\
              _restart_from_file module_labels lbls ptf fs = Returned i.
Proof.
  unfold start_index. intros H.
  destruct ofile as [ptf|]; [|left; congruence].
  destruct (str_nonempty ptf); [|left; congruence].
  destruct (py_getitem lbls 0); [|done].
  destruct (os_path_exists _ _); [right; eauto | left; congruence].
Qed.

Lemma init_inv lbls pths odict ofile fs g :
  __init__ PIL_decodes module_labels lbls pths odict ofile fs = Returned g ->
  session_inv g.
Proof.
  intros Hinit. apply init_returned in Hinit as (_ & Hlt & Hp & _ & _ & _ & Hn & _).
  unfold session_inv. rewrite Hp. split; [done|lia].
Qed.

(** C7: the index of a constructed session is 0 or the resumed count and
    lies inside the image list; every state the event loop reaches keeps
    [0 <= index <= length paths]; an operation moves the index by one or
    not at all, only an operation that reaches [vote] moves it, a recorded
    decision moves it by exactly one; and a complete session stays
    complete, with its index where it is. *)
Theorem session_invariant lbls pths odict ofile fs0 g fs ops o :
  __init__ PIL_decodes module_labels lbls pths odict ofile fs0 = Returned g ->
  let w := mainloop PIL_decodes ops (World g fs) in
  let r := run_operation PIL_decodes o w in
  (index g = 0 \/
   exists ptf, ofile = Some ptf /\
               _restart_from_file module_labels lbls ptf fs0 = Returned (index g)) /\
  index g < length pths /\
  (paths (self w) = pths /\ index g <= index (self w) <= length pths) /\
  (paths (self (fst r)) = pths /\ index (self (fst r)) <= length pths) /\
  (index (self (fst r)) = index (self w) \/
   index (self (fst r)) = index (self w) + 1) /\
  (records_decision o (self w) = false -> index (self (fst r)) = index (self w)) /\
  (records_decision o (self w) = true -> returns (snd r) = true ->
   index (self (fst r)) = index (self w) + 1) /\
  (is_complete (self w) = true ->
   index (self (fst r)) = index (self w) /\ is_complete (self (fst r)) = true).
Proof.
  intros Hinit w r.
  pose proof (init_inv _ _ _ _ _ _ Hinit) as Hinv0.
  apply init_returned in Hinit as (Hstart & Hlt & Hp & _).
  destruct (mainloop_inv PIL_decodes ops (World g fs) Hinv0) as (Hinv & Hmono & Hpw).
  fold w in Hinv, Hmono, Hpw. gui_simpl.
  pose proof (run_operation_inv PIL_decodes o w Hinv) as Hinv'. fold r in Hinv'.
  pose proof (run_operation_spec PIL_decodes o w) as ((Hpr & _) & Hstep).
  fold r in Hpr, Hstep.
  destruct Hinv as [Hn Hle]. destruct Hinv' as [Hn' Hle'].
  rewrite Hpw, Hp in *. rewrite Hpr in *.
  split; [by apply start_index_cases|].
  split; [done|]. split; [done|]. split; [done|].
  split; [destruct Hstep as [[? _]|[? _]]; auto|].
  split.
  { intros Hno. destruct Hstep as [[? _]|(_ & _ & ?)]; [done|congruence]. }
  split.
  { intros Hyes Hret. destruct Hstep as [[_ Hr]|[? _]]; [|done].
    rewrite (Hr Hyes) in Hret. done. }
  intros Hc. unfold is_complete in *.
  rewrite Hn in Hc. rewrite Hn'.
  destruct (Nat.ltb_spec (index (self w)) (length pths)); [done|].
  assert (index (self (fst r)) = index (self w)) as Hsame
    by (destruct Hstep as [[? _]|(_ & ? & _)]; [done|lia]).
  split; [done|]. rewrite Hsame.
  by destruct (Nat.ltb_spec (index (self w)) (length pths)); [lia|].
Qed.

(** C10: the constructor raises [IndexError] at [paths[self.index]]
    whenever the index it has computed is not a position of the image
    list, as for an empty list or for a resume at or past the end; a
    constructed session is never complete. *)
Theorem constructor_needs_index_in_range lbls pths odict ofile fs :
  (forall i, start_index module_labels lbls ofile fs = Returned i ->
             length pths <= i ->
             __init__ PIL_decodes module_labels lbls pths odict ofile fs
             = Raised IndexError) /\
  (file_truthy ofile = false -> pths = [] ->
   __init__ PIL_decodes module_labels lbls pths odict ofile fs = Raised IndexError) /\
  (pths = [] ->
   returns (__init__ PIL_decodes module_labels lbls pths odict ofile fs) = false) /\
  (forall g, __init__ PIL_decodes module_labels lbls pths odict ofile fs = Returned g ->
             index g < length pths /\ is_complete g = false).
Proof.
  split; [|split; [|split]].
  - intros i Hstart Hge. rewrite init_run, Hstart.
    by rewrite (lookup_ge_None_2 pths i Hge).
  - intros Hfalse ->. rewrite init_run.
    unfold start_index. unfold file_truthy in Hfalse.
    destruct ofile as [ptf|]; [rewrite Hfalse|]; done.
  - intros ->. rewrite init_run.
    destruct (start_index _ _ _ _); [|done]. by rewrite lookup_nil.
  - intros g Hinit. apply init_returned in Hinit as (_ & Hlt & _ & _ & _ & _ & Hn & _).
    split; [done|]. unfold is_complete. rewrite Hn.
    by destruct (Nat.ltb_spec (index g) (length pths)); [|lia].
Qed.
End Invariant.

(** ** Relocate mode *)

Lemma dict_get_None d k : dict_get d k = None <-> k ∉ dict_keys d.
Proof.
  induction d as [|[k' v] d IH]; cbn [dict_get dict_keys map fst].
  - split; [intros _; apply not_elem_of_nil | done].
  - rewrite not_elem_of_cons. destruct (String.eqb_spec k' k) as [->|Hne].
    + split; [done | intros [? _]; done].
    + rewrite IH. unfold dict_keys. split; [intros ?; split; [congruence|done] | tauto].
Qed.

Lemma copyfile_returned fs src dst fs' :
  copyfile fs src dst = Returned fs' ->
  exists text, files fs !! src = Some text /\ fs' = write_file fs dst text /\
               src <> dst /\ open_w_check fs dst = None.
Proof.
  unfold copyfile, samefile, open_r, open_w.
  destruct (files fs !! src) as [text|] eqn:Hsrc.
  - destruct (String.eqb_spec src dst) as [->|Hne].
    + unfold os_path_exists, is_file.
      rewrite Hsrc, bool_decide_true by eauto. done.
    + cbn [andb]. destruct (open_w_check fs dst); [done|].
      intros [= <-]. eauto.
  - by destruct (String.eqb src dst && os_path_exists fs src).
Qed.

Lemma copyfile_onto_existing fs src dst text :
  files fs !! src = Some text -> src <> dst -> open_w_check fs dst = None ->
  copyfile fs src dst = Returned (write_file fs dst text).
Proof.
  intros Hsrc Hne Hchk. unfold copyfile, samefile, open_r, open_w.
  destruct (String.eqb_spec src dst); [done|]. cbn [andb]. by rewrite Hsrc, Hchk.
Qed.

Section Relocate.
Variable PIL_decodes : string -> bool.

(** In relocate mode a decision whose copy succeeds moves the index and
    leaves the copied file system behind, whatever follows. *)
Lemma vote_relocate_copied label w input_path fs' :
  dict_truthy (out_dict (self w)) = false ->
  paths (self w) !! index (self w) = Some input_path ->
  copyfile (disk w) input_path (output_path input_path label) = Returned fs' ->
  index (self (fst (vote PIL_decodes label w))) = index (self w) + 1 /\
  disk (fst (vote PIL_decodes label w)) = fs'.
Proof.
  intros Hmode Hp Hcopy. rewrite vote_run, Hp.
  pose proof (show_next_image_spec PIL_decodes (World (self w) fs')) as (Hi & _ & _ & Hd).
  gui_simpl. specialize (Hd Hmode).
  destruct (out_dict (self w)) as [[|e d]|]; [|done|]; by rewrite Hcopy.
Qed.

(** C3, as the code has it: in relocate mode a decision whose destination
    file already exists does not fail.  [copyfile] truncates the
    destination, so the file is overwritten with the content of the source
    and the index moves on. *)
Theorem relocation_overwrites_existing label w input_path text old :
  dict_truthy (out_dict (self w)) = false ->
  paths (self w) !! index (self w) = Some input_path ->
  files (disk w) !! input_path = Some text ->
  files (disk w) !! output_path input_path label = Some old ->
  input_path <> output_path input_path label ->
  open_w_check (disk w) (output_path input_path label) = None ->
  index (self (fst (vote PIL_decodes label w))) = index (self w) + 1 /\
  files (disk (fst (vote PIL_decodes label w))) !! output_path input_path label
  = Some text /\
  dirs (disk (fst (vote PIL_decodes label w))) = dirs (disk w) /\
  (forall p, p <> output_path input_path label ->
             files (disk (fst (vote PIL_decodes label w))) !! p = files (disk w) !! p).
Proof.
  intros Hmode Hp Hsrc _ Hne Hchk.
  pose proof (copyfile_onto_existing _ _ _ _ Hsrc Hne Hchk) as Hcopy.
  destruct (vote_relocate_copied label w input_path _ Hmode Hp Hcopy) as [Hi Hd].
  rewrite Hd. cbn [write_file files dirs]. split; [done|].
  split; [apply lookup_insert_eq|]. split; [done|].
  intros p Hp'. by rewrite lookup_insert_ne.
Qed.

(** C9, as the code has it.  In manifest mode a label that is not a key of
    the manifest dict makes [vote] raise [KeyError] with nothing changed.
    In relocate mode the label list is never consulted: the outcome of the
    copy alone decides, so that a label outside the list fails only when
    the copy fails and is recorded when the copy succeeds. *)
Theorem unknown_label_outcome label w input_path :
  paths (self w) !! index (self w) = Some input_path ->
  (forall d, out_dict (self w) = Some d -> dict_truthy (Some d) = true ->
             label ∉ dict_keys d ->
             vote PIL_decodes label w = (w, Raised KeyError)) /\
  (dict_truthy (out_dict (self w)) = false ->
   (forall err,
       copyfile (disk w) input_path (output_path input_path label) = Raised err ->
       vote PIL_decodes label w = (w, Raised err)) /\
   (forall fs',
       copyfile (disk w) input_path (output_path input_path label) = Returned fs' ->
       index (self (fst (vote PIL_decodes label w))) = index (self w) + 1 /\
       disk (fst (vote PIL_decodes label w)) = fs') /\
   (is_dir (disk w) (os_path_dirname (output_path input_path label)) = false ->
    str_nonempty (os_path_dirname (output_path input_path label)) = true ->
    returns (snd (vote PIL_decodes label w)) = false /\
    fst (vote PIL_decodes label w) = w)).
Proof.
  intros Hp. split.
  - intros d Hd Hmode Hnot. rewrite vote_run, Hp, Hd.
    destruct d as [|e d]; [done|].
    unfold dict_append, dict_getitem.
    by rewrite (proj2 (dict_get_None (e :: d) label) Hnot).
  - intros Hmode. split; [|split].
    + intros err Hcopy. rewrite vote_run, Hp.
      destruct (out_dict (self w)) as [[|e d]|]; [|done|]; by rewrite Hcopy.
    + intros fs'. by apply vote_relocate_copied.
    + intros Hnodir Hnonempty.
      destruct (copyfile (disk w) input_path (output_path input_path label))
        as [fs'|err] eqn:Hcopy.
      * apply copyfile_returned in Hcopy as (text & _ & _ & _ & Hchk).
        unfold open_w_check in Hchk.
        rewrite Hnodir, Hnonempty in Hchk. cbn in Hchk.
        repeat case_match; done.
      * rewrite vote_run, Hp.
        destruct (out_dict (self w)) as [[|e d]|]; [|done|]; by rewrite Hcopy.
Qed.
End Relocate.

(** ** Resuming *)

Lemma count_manifests_present fs (name : string -> string) lbls texts : forall tot,
  Forall2 (fun l text => files fs !! name l = Some text) lbls texts ->
  count_manifests fs (map name lbls) tot
  = Returned (tot + sum_list (map count_lines texts)).
Proof.
  intros tot Hall. revert tot.
  induction Hall as [|l text lbls texts Hl _ IH]; intros tot; cbn.
  - f_equal. lia.
  - unfold open_r. rewrite Hl, IH. f_equal. lia.
Qed.

Lemma count_manifests_missing fs temp lab : forall tot,
  lab ∈ temp -> files fs !! lab = None ->
  exists e, count_manifests fs temp tot = Raised e /\
            (e = FileNotFoundError \/ e = IsADirectoryError).
Proof.
  induction temp as [|lab' temp IH]; intros tot Hin Hnone.
  - by apply elem_of_nil in Hin.
  - cbn. unfold open_r at 1.
    destruct (files fs !! lab') as [text|] eqn:Hlab'.
    + apply elem_of_cons in Hin as [->|Hin]; [congruence|]. by apply IH.
    + eexists. split; [done|]. destruct (is_dir fs lab'); auto.
Qed.

(** The parameter [labs] plays no part in the result. *)
Lemma _restart_from_file_ignores_labs module_labels labs labs' ptf fs :
  _restart_from_file module_labels labs ptf fs
  = _restart_from_file module_labels labs' ptf fs.
Proof. reflexivity. Qed.

Lemma _restart_from_file_unbound labs ptf fs :
  _restart_from_file None labs ptf fs = Raised NameError.
Proof. reflexivity. Qed.

Section Resume.
Variable PIL_decodes : string -> bool.


(** C5, as the code has it.  Only the first label's manifest file is looked
    for.  When it does not exist no manifest is read and the session starts
    at index 0, whatever the other labels' files hold.  When it exists every
    label's file is opened, and a missing one makes the resume, and with it
    the constructor, raise. *)
Theorem resume_with_missing_manifest module_labels lbls pths odict ptf fs first :
  str_nonempty ptf = true ->
  lbls !! 0 = Some first ->
  (os_path_exists fs (manifest_path ptf first) = false ->
   start_index module_labels lbls (Some ptf) fs = Returned 0 /\
   forall g,
     __init__ PIL_decodes module_labels lbls pths odict (Some ptf) fs = Returned g ->
     index g = 0) /\
  (os_path_exists fs (manifest_path ptf first) = true ->
   module_labels = Some lbls ->
   forall l, l ∈ lbls -> files fs !! manifest_path ptf l = None ->
   exists e,
     (e = FileNotFoundError \/ e = IsADirectoryError) /\
     _restart_from_file module_labels lbls ptf fs = Raised e /\
     __init__ PIL_decodes module_labels lbls pths odict (Some ptf) fs = Raised e).
Proof.
  intros Hptf Hfirst.
  assert (py_getitem lbls 0 = Returned first) as Hget
    by (change 0%Z with (Z.of_nat 0); by rewrite py_getitem_nat, Hfirst).
  split.
  - intros Hno.
    assert (start_index module_labels lbls (Some ptf) fs = Returned 0) as Hstart
      by (unfold start_index; by rewrite Hptf, Hget, Hno).
    split; [done|]. intros g Hinit.
    apply init_returned in Hinit as (Hs & _). congruence.
  - intros Hyes -> l Hl Hnone.
    destruct (count_manifests_missing fs (map (manifest_path ptf) lbls)
                (manifest_path ptf l) 0) as (e & He & Hkind);
      [by apply list_elem_of_In, in_map, list_elem_of_In | done |].
    exists e. split; [done|]. split; [done|].
    rewrite init_run. unfold start_index. rewrite Hptf, Hget, Hyes.
    unfold _restart_from_file.
    change (count_manifests fs (map (fun item => manifest_path ptf item) lbls) 0)
      with (count_manifests fs (map (manifest_path ptf) lbls) 0).
    by rewrite He.
Qed.
End Resume.

(** ** Saving the manifests *)

Lemma cut_last_sep_nonempty_tail p :
  str_nonempty (snd (cut_last_sep p)) = true -> str_nonempty p = true.
Proof. by destruct p. Qed.

(** Writing one file does not close the way to another one. *)
Lemma open_w_check_write fs p text q :
  open_w_check fs p = None -> open_w_check fs q = None ->
  open_w_check (write_file fs p text) q = None.
Proof.
  unfold open_w_check, is_dir, is_file, write_file. cbn [files dirs].
  intros Hp Hq.
  destruct (bool_decide (p ∈ dirs fs)) eqn:Hdp; [done|].
  destruct (str_nonempty (os_path_basename p)) eqn:Hbp; [|done].
  destruct (bool_decide (q ∈ dirs fs)); [done|].
  destruct (str_nonempty (os_path_basename q)); [|done]. cbn [negb orb] in *.
  destruct (bool_decide (is_Some (files fs !! os_path_dirname q))) eqn:Hfq; [done|].
  assert (os_path_dirname q <> p) as Hne.
  { intros <-.
    destruct (str_nonempty (os_path_dirname q)) eqn:Hdq; cbn [negb orb] in Hq.
    - rewrite Hdp in Hq. done.
    - apply cut_last_sep_nonempty_tail in Hbp. congruence. }
  rewrite lookup_insert_ne by done. rewrite Hfq. done.
Qed.

Lemma write_manifests_dirs ptf d ks : forall fs,
  dirs (write_manifests ptf d ks fs) = dirs fs.
Proof.
  induction ks as [|k ks IH]; intros fs; cbn; [done|].
  unfold write_manifests in IH. by rewrite IH.
Qed.

Lemma write_manifests_other ptf d ks p : forall fs,
  p ∉ map (manifest_path ptf) ks ->
  files (write_manifests ptf d ks fs) !! p = files fs !! p.
Proof.
  induction ks as [|k ks IH]; intros fs Hp; cbn; [done|].
  cbn [map] in Hp. apply not_elem_of_cons in Hp as [Hne Hp].
  unfold write_manifests in IH. rewrite IH by done.
  cbn [write_file files]. by rewrite lookup_insert_ne.
Qed.

Lemma write_manifests_lookup ptf d ks k : forall fs,
  NoDup (map (manifest_path ptf) ks) -> k ∈ ks ->
  files (write_manifests ptf d ks fs) !! manifest_path ptf k
  = Some (manifest_text (default [] (dict_get d k))).
Proof.
  induction ks as [|k' ks IH]; intros fs Hnd Hk; [by apply elem_of_nil in Hk|].
  cbn [map] in Hnd. apply NoDup_cons in Hnd as [Hfresh Hnd].
  change (write_manifests ptf d (k' :: ks) fs)
    with (write_manifests ptf d ks
            (write_file fs (manifest_path ptf k')
                        (manifest_text (default [] (dict_get d k'))))).
  destruct (decide (manifest_path ptf k = manifest_path ptf k')) as [Heq|Hne].
  - rewrite write_manifests_other by (by rewrite Heq).
    cbn [write_file files]. rewrite Heq, lookup_insert_eq.
    apply elem_of_cons in Hk as [->|Hk]; [done|].
    exfalso. apply Hfresh. rewrite <- Heq.
    by apply list_elem_of_In, in_map, list_elem_of_In.
  - apply elem_of_cons in Hk as [->|Hk]; [done|]. by apply IH.
Qed.

Lemma write_manifests_checks ptf d ks q : forall fs,
  Forall (fun k => open_w_check fs (manifest_path ptf k) = None) ks ->
  open_w_check fs q = None ->
  open_w_check (write_manifests ptf d ks fs) q = None.
Proof.
  induction ks as [|k ks IH]; intros fs Hall Hq; [done|].
  apply Forall_cons in Hall as [Hk Hall].
  change (write_manifests ptf d (k :: ks) fs)
    with (write_manifests ptf d ks
            (write_file fs (manifest_path ptf k)
                        (manifest_text (default [] (dict_get d k))))).
  apply IH; [|by apply open_w_check_write].
  eapply Forall_impl; [exact Hall|]. intros k' Hk'. by apply open_w_check_write.
Qed.

(** Writing again what the files already hold changes nothing. *)
Lemma write_manifests_again ptf d ks : forall fs,
  Forall (fun k => files fs !! manifest_path ptf k
                   = Some (manifest_text (default [] (dict_get d k)))) ks ->
  write_manifests ptf d ks fs = fs.
Proof.
  induction ks as [|k ks IH]; intros fs Hall; [done|].
  apply Forall_cons in Hall as [Hk Hall].
  change (write_manifests ptf d (k :: ks) fs)
    with (write_manifests ptf d ks
            (write_file fs (manifest_path ptf k)
                        (manifest_text (default [] (dict_get d k))))).
  assert (write_file fs (manifest_path ptf k)
                     (manifest_text (default [] (dict_get d k))) = fs) as ->.
  { destruct fs as [fl ds]. unfold write_file. cbn [files dirs] in *.
    by rewrite insert_id. }
  by apply IH.
Qed.

(** The loop of [save], run to its end. *)
Lemma save_loop g ptf d :
  out_file g = Some ptf ->
  forall ks fs,
  ks ⊆ dict_keys d ->
  Forall (fun k => open_w_check fs (manifest_path ptf k) = None) ks ->
  PyM.for_each ks (fun kk =>
    match out_file g with
    | None => PyM.raise TypeError
    | Some ptf =>
        (entries <- PyM.lift (dict_getitem d kk) ;;
         on_disk (fun fs => open_w fs (manifest_path ptf kk) (manifest_text entries)))%py
    end) (World g fs)
  = (World g (write_manifests ptf d ks fs), Returned tt).
Proof.
  intros Hof. rewrite Hof.
  induction ks as [|k ks IH]; intros fs Hsub Hall; [done|].
  apply Forall_cons in Hall as [Hk Hall].
  cbn [PyM.for_each]. rewrite !bind_run. unfold PyM.lift, dict_getitem.
  destruct (dict_get d k) as [entries|] eqn:Hget.
  2: { apply dict_get_None in Hget. exfalso. apply Hget, Hsub. by left. }
  unfold on_disk, open_w. cbn [disk self]. rewrite Hk.
  rewrite IH; [|intros x Hx; apply Hsub; by right|].
  - unfold write_manifests. cbn [fold_left]. by rewrite Hget.
  - eapply Forall_impl; [exact Hall|]. intros k' Hk'. by apply open_w_check_write.
Qed.

(** ** Manifest names and manifest lines *)

Lemma append_cons c (s t : string) : String c s ++ t = String c (s ++ t).
Proof. reflexivity. Qed.

Lemma length_append (s t : string) :
  String.length (s ++ t) = String.length s + String.length t.
Proof.
  induction s as [|c s IH]; [done|]. rewrite append_cons. cbn. by rewrite IH.
Qed.

Lemma append_assoc (s t u : string) : (s ++ t) ++ u = s ++ t ++ u.
Proof. induction s as [|c s IH]; [done|]. by rewrite !append_cons, IH. Qed.

Lemma append_inv_tail (s s' t : string) : s ++ t = s' ++ t -> s = s'.
Proof.
  intros Heq.
  assert (String.length s = String.length s') as Hlen.
  { apply (f_equal String.length) in Heq.
    rewrite !length_append in Heq. lia. }
  revert s' Heq Hlen. induction s as [|c s IH]; intros [|c' s'] Heq Hlen; try done.
  rewrite !append_cons in Heq. cbn in Hlen.
  injection Heq as -> Heq. f_equal. apply IH; [done|lia].
Qed.

Lemma startswith_sep_app k t :
  startswith_sep t = false -> startswith_sep (k ++ t) = startswith_sep k.
Proof. intros Ht. by destruct k. Qed.

(** Labels that do not begin with a separator have manifest files of their
    own. *)
Lemma manifest_path_inj ptf k k' :
  startswith_sep k = false -> startswith_sep k' = false ->
  manifest_path ptf k = manifest_path ptf k' -> k = k'.
Proof.
  intros Hk Hk'. unfold manifest_path, os_path_join. cbn [fold_left].
  unfold join_step. rewrite !startswith_sep_app, Hk, Hk' by done.
  destruct (negb (str_nonempty ptf) || endswith_sep ptf); intros Heq.
  - apply String.app_inj in Heq. by apply append_inv_tail in Heq.
  - apply String.app_inj in Heq. injection Heq as Heq. by apply append_inv_tail in Heq.
Qed.

Lemma manifest_paths_NoDup ptf ks :
  NoDup ks -> Forall (fun k => startswith_sep k = false) ks ->
  NoDup (map (manifest_path ptf) ks).
Proof.
  intros Hnd Hall. induction Hnd as [|k ks Hfresh Hnd IH]; cbn [map]; [constructor|].
  apply Forall_cons in Hall as [Hk Hall]. constructor; [|by apply IH].
  intros Hin. apply list_elem_of_In, in_map_iff in Hin as (k' & Heq & Hk').
  apply list_elem_of_In in Hk'.
  apply manifest_path_inj in Heq; [congruence| |done].
  by apply (proj1 (Forall_forall _ _) Hall).
Qed.


Lemma count_line_of_name name rest pending :
  no_line_break name = true ->
  count_lf_lines pending (universal_newlines (name ++ newline ++ rest))
  = S (count_lf_lines false (universal_newlines rest)).
Proof.
  revert pending. induction name as [|c name IH]; intros pending Hname.
  - cbn. done.
  - cbn in Hname. apply andb_prop in Hname as [Hc Hname].
    apply andb_prop in Hc as [Hlf Hcr].
    apply negb_true_iff in Hlf, Hcr.
    rewrite append_cons. cbn [universal_newlines]. rewrite Hcr.
    cbn [count_lf_lines]. rewrite Hlf. by apply IH.
Qed.

Lemma append_empty_r (s : string) : s ++ EmptyString = s.
Proof. induction s as [|c s IH]; [done|]. by rewrite append_cons, IH. Qed.

Lemma concat_empty_cons x xs :
  String.concat EmptyString (x :: xs) = x ++ String.concat EmptyString xs.
Proof. destruct xs; cbn [String.concat]; [by rewrite append_empty_r | done]. Qed.

(** A manifest that [save] wrote is read back with one line per entry. *)
Lemma count_lines_manifest_text entries :
  Forall (fun line => no_line_break (os_path_basename line) = true) entries ->
  count_lines (manifest_text entries) = length entries.
Proof.
  unfold count_lines, manifest_text.
  induction 1 as [|line entries Hline _ IH]; [done|].
  cbn [map length]. rewrite concat_empty_cons, append_assoc.
  rewrite count_line_of_name by done. by rewrite IH.
Qed.

(** The lines of a text whose first line is a name without a line break. *)
Lemma universal_newlines_name name rest :
  no_line_break name = true ->
  universal_newlines (name ++ newline ++ rest) = name ++ newline ++ universal_newlines rest.
Proof.
  induction name as [|c name IH]; intros Hname; [done|].
  cbn in Hname. apply andb_prop in Hname as [Hc Hname].
  apply andb_prop in Hc as [_ Hcr]. apply negb_true_iff in Hcr.
  rewrite !append_cons. cbn [universal_newlines]. by rewrite Hcr, IH.
Qed.

Lemma lines_keepends_name name rest :
  no_line_break name = true ->
  lines_keepends (name ++ newline ++ rest) = (name ++ newline) :: lines_keepends rest.
Proof.
  induction name as [|c name IH]; intros Hname; [done|].
  cbn in Hname. apply andb_prop in Hname as [Hc Hname].
  apply andb_prop in Hc as [Hlf _]. apply negb_true_iff in Hlf.
  rewrite !append_cons. cbn [lines_keepends]. by rewrite Hlf, IH.
Qed.

(** A manifest that [save] wrote is read back as the base names, one line
    each. *)
Lemma readlines_manifest_text entries :
  Forall (fun line => no_line_break (os_path_basename line) = true) entries ->
  readlines (manifest_text entries)
  = map (fun line => os_path_basename line ++ newline) entries.
Proof.
  unfold readlines, manifest_text.
  induction 1 as [|line entries Hline _ IH]; [done|].
  cbn [map]. rewrite concat_empty_cons, append_assoc.
  rewrite universal_newlines_name, lines_keepends_name by done. by rewrite IH.
Qed.

(** C6, as the code has it: in manifest mode, when every manifest file can
    be opened for writing and distinct labels have distinct manifest files,
    [save] returns and leaves, for every label, the file named after the
    label with the base names of the images recorded for that label, each
    followed by a line feed, in the order recorded, in place of whatever the
    file held.  When no base name has a line break in it, the file read
    line by line gives exactly these base names, one line per recorded
    decision.  Nothing else changes, and saving again changes nothing. *)
Theorem save_writes_manifests w d ptf :
  out_dict (self w) = Some d ->
  out_file (self w) = Some ptf ->
  NoDup (map (manifest_path ptf) (dict_keys d)) ->
  Forall (fun k => open_w_check (disk w) (manifest_path ptf k) = None) (dict_keys d) ->
  snd (save w) = Returned tt /\
  self (fst (save w)) = self w /\
  (forall k entries,
      dict_get d k = Some entries ->
      files (disk (fst (save w))) !! manifest_path ptf k = Some (manifest_text entries)) /\
  (forall k entries,
      dict_get d k = Some entries ->
      Forall (fun line => no_line_break (os_path_basename line) = true) entries ->
      exists text,
        files (disk (fst (save w))) !! manifest_path ptf k = Some text /\
        readlines text = map (fun line => os_path_basename line ++ newline) entries /\
        count_lines text = length entries) /\
  (forall p, p ∉ map (manifest_path ptf) (dict_keys d) ->
             files (disk (fst (save w))) !! p = files (disk w) !! p) /\
  dirs (disk (fst (save w))) = dirs (disk w) /\
  save (fst (save w)) = save w.
Proof.
  intros Hd Hof Hnd Hall.
  assert (forall fs,
    Forall (fun k => open_w_check fs (manifest_path ptf k) = None) (dict_keys d) ->
    save (World (self w) fs)
    = (World (self w) (write_manifests ptf d (dict_keys d) fs), Returned tt)) as Hrun.
  { intros fs Hchk. unfold save, this. rewrite bind_run. cbn [self]. rewrite Hd.
    by apply save_loop. }
  assert (forall k entries, dict_get d k = Some entries ->
    files (write_manifests ptf d (dict_keys d) (disk w)) !! manifest_path ptf k
    = Some (manifest_text entries)) as Hlook.
  { intros k entries Hget.
    rewrite write_manifests_lookup; [by rewrite Hget | done |].
    destruct (decide (k ∈ dict_keys d)) as [|Hnot]; [done|].
    apply dict_get_None in Hnot. congruence. }
  destruct w as [g fs]. cbn [self disk] in *.
  rewrite (Hrun fs Hall). cbn [fst snd self disk].
  split; [done|]. split; [done|]. split; [done|].
  split.
  { intros k entries Hget Hlines. exists (manifest_text entries).
    split; [by apply Hlook|].
    split; [by apply readlines_manifest_text | by apply count_lines_manifest_text]. }
  split; [intros p Hp; by apply write_manifests_other|].
  split; [apply write_manifests_dirs|].
  rewrite Hrun.
  - f_equal. f_equal. apply write_manifests_again.
    apply Forall_forall. intros k Hk.
    by apply write_manifests_lookup.
  - apply Forall_forall. intros k Hk. apply write_manifests_checks; [done|].
    by apply (proj1 (Forall_forall _ _) Hall).
Qed.

(** ** Number keys *)

Lemma to_uint_not_Nil n : Nat.to_uint n <> Nil.
Proof.
  intros Hnil. pose proof (DecimalNat.Unsigned.of_to n) as Hn.
  rewrite Hnil in Hn. cbn in Hn. subst n. done.
Qed.

(** [int(str(k)) == k] *)
Lemma py_int_py_str k : py_int (py_str k) = Returned k.
Proof.
  unfold py_int, py_str.
  rewrite NilEmpty.usu, DecimalNat.Unsigned.of_to.
  destruct (NilEmpty.string_of_uint (Nat.to_uint k)) eqn:Hs; [|done].
  pose proof (NilEmpty.usu (Nat.to_uint k)) as Hu. rewrite Hs in Hu.
  cbn in Hu. injection Hu as Hu. symmetry in Hu. by apply to_uint_not_Nil in Hu.
Qed.

Lemma py_str_inj k k' : py_str k = py_str k' -> k = k'.
Proof.
  intros Heq. pose proof (py_int_py_str k) as Hk.
  rewrite Heq, py_int_py_str in Hk. congruence.
Qed.

Lemma elem_of_bound_keys s n :
  s ∈ bound_keys n <-> exists k, 1 <= k <= n /\ s = py_str k.
Proof.
  unfold bound_keys. rewrite list_elem_of_In, in_map_iff. split.
  - intros (key & <- & Hin). apply in_seq in Hin. exists (key + 1). split; [lia|done].
  - intros (k & Hk & ->). exists (k - 1). split; [f_equal; lia|]. apply in_seq. lia.
Qed.

Lemma py_getitem_minus_one {A} (l : list A) :
  py_getitem l (Z.of_nat 0 - 1) =
  match last l with Some x => Returned x | None => Raised IndexError end.
Proof.
  unfold py_getitem. change (Z.of_nat 0 - 1)%Z with (-1)%Z.
  change (-1 <? 0)%Z with true. cbn match.
  destruct l as [|x l]; [done|]. rewrite last_lookup. cbn [length Nat.pred].
  destruct (Z.ltb_spec (-1 + Z.of_nat (S (length l))) 0); [lia|].
  by replace (Z.to_nat (-1 + Z.of_nat (S (length l)))) with (length l) by lia.
Qed.




Lemma binding_fires_bound recent key g n :
  key_bindings g = bound_keys n ->
  binding_fires recent key g = true <->
  exists k, 1 <= k <= n /\ pattern_keys (py_str k) `suffix_of` (recent ++ [key])%list.
Proof.
  intros Hbound. unfold binding_fires, sequence_matches.
  rewrite Hbound, existsb_exists. split.
  - intros (pattern & Hin & Hm).
    apply list_elem_of_In, elem_of_bound_keys in Hin as (k & Hk & ->).
    apply bool_decide_eq_true in Hm. eauto.
  - intros (k & Hk & Hm). exists (py_str k). split.
    + apply list_elem_of_In, elem_of_bound_keys. eauto.
    + by apply bool_decide_eq_true.
Qed.


Section Keys.
Variable PIL_decodes : string -> bool.


(** The labels past the ninth have no key of their own: the pattern of the
    tenth is the key [1] followed by the key [0], and with ten labels or
    more the key [0] pressed after the key [1] runs the handler, which takes
    the number 0 for the last label. *)
Lemma key_0_after_key_1 w recent :
  key_bindings (self w) = bound_keys (length (labels (self w))) ->
  10 <= length (labels (self w)) ->
  exists label,
    last (labels (self w)) = Some label /\
    key_press PIL_decodes (recent ++ ["1"])%list "0" {| char := "0" |} w
    = vote PIL_decodes label w.
Proof.
  intros Hbound Hn.
  destruct (last (labels (self w))) as [label|] eqn:Hlast.
  2: { apply last_None in Hlast. rewrite Hlast in Hn. cbn in Hn. lia. }
  exists label. split; [done|].
  rewrite key_press_run.
  rewrite (proj2 (binding_fires_bound (recent ++ ["1"])%list "0" _ _ Hbound)).
  - rewrite vote_key_run. cbn [char]. change "0" with (py_str 0).
    by rewrite py_int_py_str, py_getitem_minus_one, Hlast.
  - exists 10. split; [lia|].
    change (pattern_keys (py_str 10)) with ["1"; "0"].
    rewrite <- (assoc_L (++)). by apply suffix_app_r.
Qed.

(** The handler itself does not ignore a number it was not bound to: past
    the last label it raises, and at 0 it votes for the last label. *)
Lemma vote_key_out_of_range w k :
  length (labels (self w)) < k ->
  vote_key PIL_decodes {| char := py_str k |} w = (w, Raised IndexError).
Proof.
  intros Hk. rewrite vote_key_run. cbn [char].
  rewrite py_int_py_str, py_getitem_pred by lia.
  by rewrite lookup_ge_None_2 by lia.
Qed.

Lemma vote_key_zero w label :
  last (labels (self w)) = Some label ->
  vote_key PIL_decodes {| char := py_str 0 |} w = vote PIL_decodes label w.
Proof.
  intros Hlast. rewrite vote_key_run. cbn [char].
  by rewrite py_int_py_str, py_getitem_minus_one, Hlast.
Qed.
End Keys.

(** ** The theorems at work on the small session *)

Example init_relocate :
  __init__ every_file_decodes None demo_labels demo_paths None None demo_fs
  = Returned relocate_session.
Proof. vm_compute. reflexivity. Qed.

Example init_manifest :
  __init__ every_file_decodes (Some demo_labels) demo_labels demo_paths
           (Some demo_dict) (Some "in") demo_fs
  = Returned manifest_session.
Proof. vm_compute. reflexivity. Qed.

(** The scenario of the specification: cat, dog, cat over three images. *)
Example scenario_cat_dog_cat :
  snd (votes every_file_decodes ["cat"; "dog"; "cat"] (World manifest_session demo_fs))
  = Returned tt /\
  index (self manifest_done) = 3 /\
  is_complete (self manifest_done) = true /\
  master_quit (self manifest_done) = true /\
  out_dict (self manifest_done)
  = Some [("cat", ["in/a.jpg"; "in/c.jpg"]); ("dog", ["in/b.jpg"])] /\
  files (disk manifest_done) !! "in/cat.txt"
  = Some ("a.jpg" ++ newline ++ "c.jpg" ++ newline) /\
  files (disk manifest_done) !! "in/dog.txt" = Some ("b.jpg" ++ newline).
Proof. vm_compute. repeat split; reflexivity. Qed.

(** The scenario of the specification: one line in each manifest resumes at
    the third image. *)
Example scenario_resume :
  exists g,
    __init__ every_file_decodes (Some demo_labels) demo_labels demo_paths
             (Some demo_dict) (Some "in") resumed_fs = Returned g /\
    index g = 2 /\ image g = Some "in/c.jpg" /\ progress_label g = "2/3".
Proof. eexists. vm_compute. repeat split; reflexivity. Qed.

(** A finished and saved session cannot be opened again. *)
Example reopen_finished :
  __init__ every_file_decodes (Some demo_labels) demo_labels demo_paths
           (Some demo_dict) (Some "in") (disk manifest_done)
  = Raised IndexError.
Proof. vm_compute. reflexivity. Qed.

Lemma index_after_decisions_witness :
  __init__ every_file_decodes (Some demo_labels) demo_labels demo_paths
           (Some demo_dict) (Some "in") demo_fs = Returned manifest_session /\
  votes every_file_decodes ["cat"; "dog"; "cat"] (World manifest_session demo_fs)
  = (manifest_done, Returned tt) /\
  index (self manifest_done) = 0 + 3 /\
  (is_complete (self manifest_done) = true <-> 0 + 3 = 3).
Proof.
  assert (__init__ every_file_decodes (Some demo_labels) demo_labels demo_paths
            (Some demo_dict) (Some "in") demo_fs = Returned manifest_session) as Hinit
    by (vm_compute; reflexivity).
  assert (votes every_file_decodes ["cat"; "dog"; "cat"] (World manifest_session demo_fs)
          = (manifest_done, Returned tt)) as Hvotes
    by (vm_compute; reflexivity).
  split; [exact Hinit|]. split; [exact Hvotes|].
  destruct (index_after_decisions every_file_decodes _ _ _ _ _ _ _ _ _ _ Hinit Hvotes)
    as (Hi & _ & Hc & _).
  split; [exact Hi | exact Hc].
Defined.

Lemma vote_aborts_on_persistence_error_witness :
  paths relocate_session !! index relocate_session = Some "in/a.jpg" /\
  copyfile demo_fs "in/a.jpg" (output_path "in/a.jpg" "bird") = Raised FileNotFoundError /\
  vote every_file_decodes "bird" (World relocate_session demo_fs)
  = (World relocate_session demo_fs, Raised FileNotFoundError).
Proof.
  assert (paths relocate_session !! index relocate_session = Some "in/a.jpg") as Hp
    by reflexivity.
  assert (copyfile demo_fs "in/a.jpg" (output_path "in/a.jpg" "bird")
          = Raised FileNotFoundError) as Hcopy by (vm_compute; reflexivity).
  split; [exact Hp|]. split; [exact Hcopy|].
  exact (proj1 (vote_aborts_on_persistence_error every_file_decodes "bird"
                  (World relocate_session demo_fs) "in/a.jpg" FileNotFoundError
                  Hp (or_introl (conj eq_refl Hcopy)))).
Defined.

(** The same in manifest mode: a label without an entry in the dict. *)
Example vote_aborts_in_manifest_mode :
  vote every_file_decodes "bird" (World manifest_session demo_fs)
  = (World manifest_session demo_fs, Raised KeyError).
Proof. vm_compute. reflexivity. Qed.

(** The first run leaves [a.jpg] under [cat]. *)
Example first_relocation :
  disk (fst (vote every_file_decodes "cat" (World relocate_session demo_fs)))
  = sorted_once_fs.
Proof. vm_compute. reflexivity. Qed.

(** Against C3 as stated: the same decision made again, with the copy of the
    first run in place, is recorded without any exception. *)
Lemma second_relocation_succeeds :
  is_file sorted_once_fs (output_path "in/a.jpg" "cat") = true /\
  snd (vote every_file_decodes "cat" (World relocate_session sorted_once_fs))
  = Returned tt /\
  index (self (fst (vote every_file_decodes "cat" (World relocate_session sorted_once_fs))))
  = 1.
Proof. vm_compute. repeat split; reflexivity. Qed.

Lemma relocation_overwrites_existing_witness :
  dict_truthy (out_dict relocate_session) = false /\
  files stale_copy_fs !! "in/a.jpg" = Some "A" /\
  files stale_copy_fs !! output_path "in/a.jpg" "cat" = Some "OLD" /\
  index (self (fst (vote every_file_decodes "cat" (World relocate_session stale_copy_fs))))
  = 0 + 1 /\
  files (disk (fst (vote every_file_decodes "cat" (World relocate_session stale_copy_fs))))
    !! output_path "in/a.jpg" "cat" = Some "A".
Proof.
  assert (files stale_copy_fs !! "in/a.jpg" = Some "A") as Hsrc
    by (vm_compute; reflexivity).
  assert (files stale_copy_fs !! output_path "in/a.jpg" "cat" = Some "OLD") as Hdst
    by (vm_compute; reflexivity).
  assert ("in/a.jpg" <> output_path "in/a.jpg" "cat") as Hne
    by (vm_compute; discriminate).
  assert (open_w_check stale_copy_fs (output_path "in/a.jpg" "cat") = None) as Hchk
    by (vm_compute; reflexivity).
  split; [reflexivity|]. split; [exact Hsrc|]. split; [exact Hdst|].
  destruct (relocation_overwrites_existing every_file_decodes "cat"
              (World relocate_session stale_copy_fs) "in/a.jpg" "A" "OLD"
              eq_refl eq_refl Hsrc Hdst Hne Hchk) as (Hi & Hfile & _).
  split; [exact Hi | exact Hfile].
Defined.


(** Against C5 as stated.  With the first label's manifest in place and the
    second label's missing, the resume raises and no session is built.  With
    the first label's manifest missing, the line of the second label's
    manifest is not counted. *)
Lemma missing_manifest_is_fatal_or_hides_the_rest :
  (os_path_exists half_saved_fs (manifest_path "in" "dog") = false /\
   count_lines ("a.jpg" ++ newline) = 1 /\
   _restart_from_file (Some demo_labels) demo_labels "in" half_saved_fs
   = Raised FileNotFoundError /\
   __init__ every_file_decodes (Some demo_labels) demo_labels demo_paths
            (Some demo_dict) (Some "in") half_saved_fs
   = Raised FileNotFoundError) /\
  (os_path_exists other_half_fs (manifest_path "in" "cat") = false /\
   files other_half_fs !! manifest_path "in" "dog" = Some ("b.jpg" ++ newline) /\
   count_lines ("b.jpg" ++ newline) = 1 /\
   __init__ every_file_decodes (Some demo_labels) demo_labels demo_paths
            (Some demo_dict) (Some "in") other_half_fs
   = Returned manifest_session /\
   index manifest_session = 0).
Proof. vm_compute. repeat split; reflexivity. Qed.

Lemma resume_with_missing_manifest_witness :
  str_nonempty "in" = true /\
  demo_labels !! 0 = Some "cat" /\
  os_path_exists half_saved_fs (manifest_path "in" "cat") = true /\
  files half_saved_fs !! manifest_path "in" "dog" = None /\
  exists e,
    (e = FileNotFoundError \/ e = IsADirectoryError) /\
    _restart_from_file (Some demo_labels) demo_labels "in" half_saved_fs = Raised e /\
    __init__ every_file_decodes (Some demo_labels) demo_labels demo_paths
             (Some demo_dict) (Some "in") half_saved_fs = Raised e.
Proof.
  assert (os_path_exists half_saved_fs (manifest_path "in" "cat") = true) as Hyes
    by (vm_compute; reflexivity).
  assert (files half_saved_fs !! manifest_path "in" "dog" = None) as Hnone
    by (vm_compute; reflexivity).
  assert ("dog" ∈ demo_labels) as Hin by (right; left).
  split; [reflexivity|]. split; [reflexivity|]. split; [exact Hyes|].
  split; [exact Hnone|].
  exact (proj2 (resume_with_missing_manifest every_file_decodes (Some demo_labels)
                  demo_labels demo_paths (Some demo_dict) "in" half_saved_fs "cat"
                  eq_refl eq_refl) Hyes eq_refl "dog" Hin Hnone).
Defined.

(** Against C6 as stated: one decision, for an image whose file name has a
    line feed in it, and [save] leaves a manifest of two lines, none of them
    the base name of the image. *)
Lemma line_break_in_name_gives_two_lines :
  __init__ every_file_decodes (Some ["cat"]) ["cat"] [two_line_name]
           (Some [("cat", [])]) (Some "in") two_line_fs = Returned two_line_session /\
  out_dict (self two_line_done) = Some [("cat", [two_line_name])] /\
  out_file (self two_line_done) = Some "in" /\
  snd (save two_line_done) = Returned tt /\
  exists text,
    files (disk (fst (save two_line_done))) !! manifest_path "in" "cat" = Some text /\
    readlines text = ["a" ++ newline; "b.jpg" ++ newline] /\
    count_lines text = 2.
Proof.
  split; [vm_compute; reflexivity|].
  split; [vm_compute; reflexivity|]. split; [vm_compute; reflexivity|].
  split; [vm_compute; reflexivity|].
  eexists. split; [vm_compute; reflexivity|]. split; vm_compute; reflexivity.
Qed.

Lemma save_writes_manifests_witness :
  files half_saved_fs !! manifest_path "in" "cat" = Some ("a.jpg" ++ newline) /\
  snd (save (World (self manifest_done) half_saved_fs)) = Returned tt /\
  (exists text,
      files (disk (fst (save (World (self manifest_done) half_saved_fs))))
        !! manifest_path "in" "cat" = Some text /\
      readlines text = ["a.jpg" ++ newline; "c.jpg" ++ newline] /\
      count_lines text = 2) /\
  files (disk (fst (save (World (self manifest_done) half_saved_fs))))
    !! manifest_path "in" "dog"
  = Some (manifest_text ["in/b.jpg"]) /\
  save (fst (save (World (self manifest_done) half_saved_fs)))
  = save (World (self manifest_done) half_saved_fs).
Proof.
  assert (out_dict (self manifest_done)
          = Some [("cat", ["in/a.jpg"; "in/c.jpg"]); ("dog", ["in/b.jpg"])]) as Hd
    by (vm_compute; reflexivity).
  assert (out_file (self manifest_done) = Some "in") as Hof
    by (vm_compute; reflexivity).
  assert (NoDup (map (manifest_path "in")
                   (dict_keys [("cat", ["in/a.jpg"; "in/c.jpg"]); ("dog", ["in/b.jpg"])])))
    as Hnd.
  { apply manifest_paths_NoDup.
    - apply (bool_decide_unpack _). vm_compute. exact I.
    - repeat constructor. }
  assert (Forall (fun k => open_w_check half_saved_fs (manifest_path "in" k) = None)
            (dict_keys [("cat", ["in/a.jpg"; "in/c.jpg"]); ("dog", ["in/b.jpg"])]))
    as Hchk by (repeat constructor; vm_compute; reflexivity).
  assert (Forall (fun line => no_line_break (os_path_basename line) = true)
            ["in/a.jpg"; "in/c.jpg"]) as Hnames by (repeat constructor).
  destruct (save_writes_manifests (World (self manifest_done) half_saved_fs) _ "in"
              Hd Hof Hnd Hchk) as (Hret & _ & Hfiles & Hlines & _ & _ & Hagain).
  split; [vm_compute; reflexivity|]. split; [exact Hret|].
  split; [exact (Hlines "cat" _ eq_refl Hnames)|].
  split; [exact (Hfiles "dog" _ eq_refl)|].
  exact Hagain.
Defined.

(** What [save] wrote is read back as one line per decision. *)
Example saved_lines_counted :
  count_lines (manifest_text ["in/a.jpg"; "in/c.jpg"]) = 2.
Proof. apply count_lines_manifest_text. repeat constructor. Qed.

Lemma session_invariant_witness :
  __init__ every_file_decodes (Some demo_labels) demo_labels demo_paths
           (Some demo_dict) (Some "in") demo_fs = Returned manifest_session /\
  index (self (mainloop every_file_decodes
                 [KeyPress [] "1" {| char := "1" |}; Save; Vote "dog";
                  KeyPress ["1"; "Button-1"; "Button-1"] "7" {| char := "7" |}]
                 (World manifest_session demo_fs))) <= 3 /\
  index (self (fst (run_operation every_file_decodes (Vote "cat")
                      (mainloop every_file_decodes
                         [KeyPress [] "1" {| char := "1" |}; Save; Vote "dog";
                          KeyPress ["1"; "Button-1"; "Button-1"] "7" {| char := "7" |}]
                         (World manifest_session demo_fs))))) <= 3.
Proof.
  assert (__init__ every_file_decodes (Some demo_labels) demo_labels demo_paths
            (Some demo_dict) (Some "in") demo_fs = Returned manifest_session) as Hinit
    by (vm_compute; reflexivity).
  split; [exact Hinit|].
  destruct (session_invariant every_file_decodes _ _ _ _ _ _ _ demo_fs
              [KeyPress [] "1" {| char := "1" |}; Save; Vote "dog";
               KeyPress ["1"; "Button-1"; "Button-1"] "7" {| char := "7" |}]
              (Vote "cat") Hinit)
    as (_ & _ & (_ & _ & Hw) & (_ & Hr) & _).
  split; [exact Hw | exact Hr].
Defined.


(** The spec's scenario: key 3 with two labels leaves index and manifest
    alone. *)
Example scenario_key_3 :
  fst (key_press every_file_decodes [] "3" {| char := "3" |}
         (World manifest_session demo_fs))
  = World manifest_session demo_fs.
Proof. vm_compute. reflexivity. Qed.


(** Against C9 as stated: in relocate mode a label that is not configured,
    but whose folder exists, is recorded like any other. *)
Lemma unconfigured_label_is_recorded :
  ("old" ∉ labels relocate_session) /\
  snd (vote every_file_decodes "old" (World relocate_session demo_fs)) = Returned tt /\
  index (self (fst (vote every_file_decodes "old" (World relocate_session demo_fs)))) = 1 /\
  files (disk (fst (vote every_file_decodes "old" (World relocate_session demo_fs))))
    !! "in/old/a.jpg" = Some "A".
Proof.
  split; [|vm_compute; repeat split; reflexivity].
  apply (bool_decide_unpack _). vm_compute. exact I.
Qed.

Lemma unknown_label_outcome_witness :
  paths manifest_session !! index manifest_session = Some "in/a.jpg" /\
  ("bird" ∉ dict_keys demo_dict) /\
  vote every_file_decodes "bird" (World manifest_session demo_fs)
  = (World manifest_session demo_fs, Raised KeyError) /\
  returns (snd (vote every_file_decodes "bird" (World relocate_session demo_fs))) = false.
Proof.
  assert ("bird" ∉ dict_keys demo_dict) as Hnot
    by (apply (bool_decide_unpack _); vm_compute; exact I).
  split; [reflexivity|]. split; [exact Hnot|]. split.
  - exact (proj1 (unknown_label_outcome every_file_decodes "bird"
                    (World manifest_session demo_fs) "in/a.jpg" eq_refl)
                 demo_dict eq_refl eq_refl Hnot).
  - destruct (proj2 (unknown_label_outcome every_file_decodes "bird"
                       (World relocate_session demo_fs) "in/a.jpg" eq_refl) eq_refl)
      as (_ & _ & Hnodir).
    apply Hnodir; vm_compute; reflexivity.
Defined.

Lemma constructor_needs_index_in_range_witness :
  __init__ every_file_decodes None demo_labels [] None None demo_fs = Raised IndexError /\
  start_index (Some demo_labels) demo_labels (Some "in") (disk manifest_done) = Returned 3 /\
  __init__ every_file_decodes (Some demo_labels) demo_labels demo_paths
           (Some demo_dict) (Some "in") (disk manifest_done) = Raised IndexError.
Proof.
  assert (start_index (Some demo_labels) demo_labels (Some "in") (disk manifest_done)
          = Returned 3) as Hstart by (vm_compute; reflexivity).
  split; [|split; [exact Hstart|]].
  - exact (proj1 (proj2 (constructor_needs_index_in_range every_file_decodes None
                           demo_labels [] None None demo_fs)) eq_refl eq_refl).
  - exact (proj1 (constructor_needs_index_in_range every_file_decodes (Some demo_labels)
                    demo_labels demo_paths (Some demo_dict) (Some "in") (disk manifest_done))
                 3 Hstart (le_n 3)).
Defined.

(** * More properties of the module *)

(** ** The manifest dict *)

Lemma dict_get_setitem d k v k' :
  dict_get (dict_setitem d k v) k' = if String.eqb k k' then Some v else dict_get d k'.
Proof.
  induction d as [|[k0 v0] d IH]; cbn [dict_setitem dict_get].
  - by destruct (String.eqb k k').
  - destruct (String.eqb_spec k0 k) as [->|Hne]; cbn [dict_get].
    + by destruct (String.eqb_spec k k').
    + destruct (String.eqb_spec k0 k') as [->|Hne'].
      * destruct (String.eqb_spec k k'); [congruence|done].
      * apply IH.
Qed.

Lemma dict_keys_setitem d k v v0 :
  dict_get d k = Some v0 -> dict_keys (dict_setitem d k v) = dict_keys d.
Proof.
  induction d as [|[k0 v1] d IH]; cbn [dict_get dict_setitem]; [done|].
  destruct (String.eqb k0 k); [done|]. intros Hget.
  unfold dict_keys in *. cbn [map fst]. by rewrite IH.
Qed.

Lemma dict_total_setitem d k v0 x :
  dict_get d k = Some v0 ->
  dict_total (dict_setitem d k (v0 ++ [x])) = dict_total d + 1.
Proof.
  unfold dict_total.
  induction d as [|[k0 v1] d IH]; cbn [dict_get dict_setitem]; [done|].
  destruct (String.eqb k0 k).
  - intros [= ->]. cbn [map sum_list snd]. rewrite length_app. cbn [length].
    unfold id. lia.
  - intros Hget. cbn [map sum_list snd]. rewrite IH by done. unfold id. lia.
Qed.

Lemma dict_append_returned d k x v :
  dict_get d k = Some v ->
  dict_append d k x = Returned (dict_setitem d k (v ++ [x])).
Proof. intros Hget. unfold dict_append, dict_getitem. by rewrite Hget. Qed.

Lemma dict_setitem_truthy d k v v0 :
  dict_get d k = Some v0 -> dict_truthy (Some (dict_setitem d k v)) = true.
Proof.
  destruct d as [|[k0 v1] d]; cbn [dict_get dict_setitem]; [done|].
  by destruct (String.eqb k0 k).
Qed.

(** ** [show_next_image], case by case *)

Section Display.
Variable PIL_decodes : string -> bool.

Lemma show_next_image_run w :
  show_next_image PIL_decodes w =
  let g1 := set_progress_label
              (progress_string (index (self w) + 1) (n_paths (self w)))
              (set_index (index (self w) + 1) (self w)) in
  if Nat.ltb (index (self w) + 1) (n_paths (self w)) then
    match paths (self w) !! (index (self w) + 1) with
    | None => (World g1 (disk w), Raised IndexError)
    | Some path => set_image PIL_decodes path (World g1 (disk w))
    end
  else if file_truthy (out_file (self w)) then
    match save (World g1 (disk w)) with
    | (w2, Returned _) => (World (set_master_quit (self w2)) (disk w2), Returned tt)
    | (w2, Raised e) => (w2, Raised e)
    end
  else (World (set_master_quit g1) (disk w), Returned tt).
Proof.
  unfold show_next_image, on_self, PyM.modify, this.
  rewrite !bind_run. destruct w as [g fs]. gui_simpl. cbn zeta.
  destruct (Nat.ltb (index g + 1) (n_paths g)).
  - rewrite bind_run. unfold PyM.lift. rewrite py_getitem_nat.
    by destruct (paths g !! (index g + 1)).
  - rewrite bind_run. by destruct (file_truthy (out_file g)).
Qed.

(** While images remain, [show_next_image] writes no file and does not ask
    the window to quit. *)
Lemma show_next_image_active w :
  Nat.ltb (index (self w) + 1) (n_paths (self w)) = true ->
  disk (fst (show_next_image PIL_decodes w)) = disk w /\
  master_quit (self (fst (show_next_image PIL_decodes w))) = master_quit (self w) /\
  progress_label (self (fst (show_next_image PIL_decodes w)))
  = progress_string (index (self w) + 1) (n_paths (self w)) /\
  (snd (show_next_image PIL_decodes w) = Returned tt ->
   image (self (fst (show_next_image PIL_decodes w)))
   = paths (self w) !! (index (self w) + 1) /\
   is_Some (paths (self w) !! (index (self w) + 1))).
Proof.
  intros Hlt. rewrite show_next_image_run. cbn zeta. rewrite Hlt.
  destruct (paths (self w) !! (index (self w) + 1)) as [path|];
    [|by split; [|split; [|split]]].
  rewrite set_image_run. gui_simpl.
  destruct (open_r (disk w) path) as [content|]; [|by split; [|split; [|split]]].
  destruct (PIL_decodes content); (split; [done|split; [done|split; [done|]]]);
    [intros _; split; [done|eauto] | done].
Qed.

(** [show_next_image] leaves the label showing the new index, and asks the
    window to quit only past the last image. *)
Lemma show_next_image_display w :
  progress_label (self (fst (show_next_image PIL_decodes w)))
  = progress_string (index (self w) + 1) (n_paths (self w)) /\
  (master_quit (self (fst (show_next_image PIL_decodes w))) = true ->
   master_quit (self w) = true \/
   Nat.ltb (index (self w) + 1) (n_paths (self w)) = false).
Proof.
  destruct (Nat.ltb (index (self w) + 1) (n_paths (self w))) eqn:Hlt.
  - destruct (show_next_image_active w Hlt) as (_ & Hq & Hp & _).
    rewrite Hq. split; [done|]. by left.
  - split; [|by right].
    rewrite show_next_image_run. cbn zeta. rewrite Hlt.
    destruct (file_truthy (out_file (self w))); [|done].
    pose proof (save_self (World (set_progress_label
                  (progress_string (index (self w) + 1) (n_paths (self w)))
                  (set_index (index (self w) + 1) (self w))) (disk w))) as Hs.
    destruct (save _) as [w2 [[]|e]]; gui_simpl; by rewrite Hs.
Qed.
End Display.

(** ** Decisions in manifest mode *)

Section Manifest.
Variable PIL_decodes : string -> bool.

(** [vote] in manifest mode for a label of the dict, up to
    [show_next_image]. *)
Lemma vote_manifest_run label w d entries p :
  out_dict (self w) = Some d ->
  dict_get d label = Some entries ->
  paths (self w) !! index (self w) = Some p ->
  vote PIL_decodes label w
  = show_next_image PIL_decodes
      (World (set_out_dict (Some (dict_setitem d label (entries ++ [p])%list)) (self w))
             (disk w)).
Proof.
  intros Hd Hget Hp. rewrite vote_run, Hp, Hd.
  destruct d as [|e d]; [done|].
  by rewrite (dict_append_returned _ _ _ _ Hget).
Qed.

(** X1: in manifest mode a vote for a label of the dict on an image of the
    list is always recorded: the index moves by one, the image path is
    appended to the list of that label, the lists of the other labels and
    the keys of the dict stay as they are, and the dict holds one entry
    more.  This holds whatever [show_next_image] does afterwards. *)
Theorem vote_records_under_label label w d entries p :
  out_dict (self w) = Some d ->
  dict_get d label = Some entries ->
  paths (self w) !! index (self w) = Some p ->
  index (self (fst (vote PIL_decodes label w))) = index (self w) + 1 /\
  exists d',
    out_dict (self (fst (vote PIL_decodes label w))) = Some d' /\
    dict_keys d' = dict_keys d /\
    dict_get d' label = Some (entries ++ [p])%list /\
    (forall k, k <> label -> dict_get d' k = dict_get d k) /\
    dict_total d' = dict_total d + 1.
Proof.
  intros Hd Hget Hp. rewrite (vote_manifest_run _ _ _ _ _ Hd Hget Hp).
  pose proof (show_next_image_spec PIL_decodes
                (World (set_out_dict (Some (dict_setitem d label (entries ++ [p])%list))
                                     (self w)) (disk w))) as (Hi & _ & Ho & _).
  gui_simpl. split; [done|].
  exists (dict_setitem d label (entries ++ [p])%list).
  split; [done|]. split; [by eapply dict_keys_setitem|].
  split; [by rewrite dict_get_setitem, String.eqb_refl|].
  split; [|by apply dict_total_setitem].
  intros k Hk. rewrite dict_get_setitem.
  by destruct (String.eqb_spec label k); [congruence|].
Qed.

Lemma decided_for_cons k p ps l ls :
  decided_for k (p :: ps) (l :: ls)
  = ((if String.eqb l k then [p] else []) ++ decided_for k ps ls)%list.
Proof. cbn [decided_for]. by destruct (String.eqb l k). Qed.

Lemma votes_manifest ls : forall g fs w' d,
  votes PIL_decodes ls (World g fs) = (w', Returned tt) ->
  out_dict g = Some d -> dict_truthy (Some d) = true ->
  exists d',
    out_dict (self w') = Some d' /\ dict_truthy (Some d') = true /\
    dict_keys d' = dict_keys d /\
    dict_total d' = dict_total d + length ls /\
    forall k,
      dict_get d' k
      = (fun entries => (entries ++ decided_for k (drop (index g) (paths g)) ls)%list)
          <$> dict_get d k.
Proof.
  induction ls as [|l ls IH]; intros g fs w' d; unfold votes; cbn [PyM.for_each].
  - intros [= <-] Hd Ht. exists d. gui_simpl.
    split; [done|]. split; [done|]. split; [done|]. split; [cbn; lia|].
    intros k. destruct (drop (index g) (paths g)); cbn [decided_for];
      destruct (dict_get d k); cbn; by rewrite ?app_nil_r.
  - rewrite bind_run.
    destruct (vote PIL_decodes l (World g fs)) as [w1 [[]|e]] eqn:Hv; [|done].
    intros Hrest Hd Ht.
    pose proof Hv as Hv'. rewrite vote_run in Hv'. gui_simpl. rewrite Hd in Hv'.
    destruct (paths g !! index g) as [p|] eqn:Hp; [|done].
    destruct d as [|e0 d0]; [done|].
    destruct (dict_get (e0 :: d0) l) as [entries|] eqn:Hget.
    2: { unfold dict_append, dict_getitem in Hv'. by rewrite Hget in Hv'. }
    rewrite (vote_manifest_run l (World g fs) _ entries p Hd Hget Hp) in Hv.
    cbn [self disk] in Hv.
    pose proof (show_next_image_spec PIL_decodes
                  (World (set_out_dict
                            (Some (dict_setitem (e0 :: d0) l (entries ++ [p])%list)) g)
                         fs)) as (Hi & (Hp1 & _) & Hd1 & _).
    rewrite Hv in Hi, Hp1, Hd1. gui_simpl.
    set (d1 := dict_setitem (e0 :: d0) l (entries ++ [p])%list) in *.
    assert (dict_keys d1 = dict_keys (e0 :: d0)) as Hk1
      by (by eapply dict_keys_setitem).
    assert (dict_total d1 = dict_total (e0 :: d0) + 1) as Ht1
      by (by apply dict_total_setitem).
    assert (dict_truthy (Some d1) = true) as Htr1.
    { by eapply dict_setitem_truthy. }
    destruct w1 as [g1 fs1]. gui_simpl.
    destruct (IH g1 fs1 w' d1 Hrest Hd1 Htr1) as (d' & Hd' & Ht' & Hk' & Htot' & Hall).
    exists d'. split; [done|]. split; [done|]. split; [congruence|].
    split; [cbn [length]; lia|].
    intros k. rewrite Hall, Hp1, Hi.
    rewrite (drop_S _ _ _ Hp), decided_for_cons.
    replace (index g + 1) with (S (index g)) by lia.
    destruct (String.eqb_spec l k) as [->|Hne].
    + unfold d1. rewrite dict_get_setitem, String.eqb_refl, Hget. cbn.
      by rewrite <- app_assoc.
    + unfold d1. rewrite dict_get_setitem.
      destruct (String.eqb_spec l k); [done|].
      destruct (dict_get (e0 :: d0) k); cbn; done.
Qed.
End Manifest.

Section ManifestRuns.
Variable PIL_decodes : string -> bool.

(** The mode of a session does not change with a vote. *)
Lemma vote_keeps_mode label w :
  dict_truthy (out_dict (self (fst (vote PIL_decodes label w))))
  = dict_truthy (out_dict (self w)).
Proof.
  rewrite vote_run.
  destruct (paths (self w) !! index (self w)) as [p|]; [|done].
  destruct (out_dict (self w)) as [[|e d]|] eqn:Hd.
  1,3: destruct (copyfile _ _ _) as [fs'|]; [|cbn [fst]; by rewrite Hd];
    pose proof (show_next_image_spec PIL_decodes (World (self w) fs')) as (_ & _ & Ho & _);
    gui_simpl; by rewrite Ho, Hd.
  unfold dict_append, dict_getitem.
  destruct (dict_get (e :: d) label) as [entries|] eqn:Hget;
    [|cbn [fst]; by rewrite Hd].
  pose proof (show_next_image_spec PIL_decodes
                (World (set_out_dict (Some (dict_setitem (e :: d) label
                                              (entries ++ [p])%list)) (self w))
                       (disk w))) as (_ & _ & Ho & _).
  gui_simpl. rewrite Ho. by eapply dict_setitem_truthy.
Qed.

(** A vote in manifest mode that does not reach the end of the list writes
    no file and does not ask the window to quit. *)
Lemma vote_manifest_disk label w :
  dict_truthy (out_dict (self w)) = true ->
  index (self w) + 1 < n_paths (self w) ->
  disk (fst (vote PIL_decodes label w)) = disk w /\
  master_quit (self (fst (vote PIL_decodes label w))) = master_quit (self w).
Proof.
  intros Hmode Hlt. rewrite vote_run.
  destruct (paths (self w) !! index (self w)) as [p|]; [|done].
  destruct (out_dict (self w)) as [[|e d]|]; [done| |done].
  destruct (dict_append _ _ _) as [d'|]; [|done].
  destruct (show_next_image_active PIL_decodes
              (World (set_out_dict (Some d') (self w)) (disk w))) as (Hd & Hq & _).
  { gui_simpl. by apply Nat.ltb_lt. }
  by gui_simpl.
Qed.

(** X2: from a constructed session in manifest mode, after a run of votes
    that all returned, the list of every label of the dict is the list it
    had at the start followed by the images that the run gave to that label,
    in the order of the decisions; the keys are the same and the dict has
    gained one entry per decision. *)
Theorem manifest_after_votes
        module_labels lbls pths d ofile fs0 g fs ls w' :
  __init__ PIL_decodes module_labels lbls pths (Some d) ofile fs0 = Returned g ->
  dict_truthy (Some d) = true ->
  votes PIL_decodes ls (World g fs) = (w', Returned tt) ->
  exists d',
    out_dict (self w') = Some d' /\
    dict_keys d' = dict_keys d /\
    dict_total d' = dict_total d + length ls /\
    forall k entries,
      dict_get d k = Some entries ->
      dict_get d' k = Some (entries ++ decided_for k (drop (index g) pths) ls)%list.
Proof.
  intros Hinit Hmode Hvotes.
  apply init_returned in Hinit as (_ & _ & Hp & _ & Hd & _).
  destruct (votes_manifest PIL_decodes ls g fs w' d Hvotes Hd Hmode)
    as (d' & Hd' & _ & Hk & Ht & Hall).
  exists d'. split; [done|]. split; [done|]. split; [done|].
  intros k entries Hget. by rewrite Hall, Hget, Hp.
Qed.

(** X3: in manifest mode nothing reaches the file system before the last
    image: as long as a run of votes, whether it returned or raised, has
    left the index short of the number of images, the files are as they
    were and the window has not been asked to quit. *)
Theorem manifest_votes_write_nothing ls : forall w,
  dict_truthy (out_dict (self w)) = true ->
  index (self (fst (votes PIL_decodes ls w))) < n_paths (self w) ->
  disk (fst (votes PIL_decodes ls w)) = disk w /\
  master_quit (self (fst (votes PIL_decodes ls w))) = master_quit (self w).
Proof.
  induction ls as [|l ls IH]; intros w Hmode Hlt; unfold votes in *;
    cbn [PyM.for_each] in *; [done|].
  rewrite bind_run in *.
  pose proof (vote_spec PIL_decodes l w) as ((_ & _ & _ & _ & Hn & _) & Hstep).
  pose proof (vote_keeps_mode l w) as Hmode1.
  pose proof (vote_manifest_disk l w Hmode) as Hdisk.
  destruct (vote PIL_decodes l w) as [w1 [[]|e]] eqn:Hv; cbn [fst snd] in *.
  - assert (index (self w1) <= index (self (fst (PyM.for_each ls (vote PIL_decodes) w1))))
      as Hmono.
    { clear. revert w1. induction ls as [|l' ls IH']; intros w1; cbn [PyM.for_each];
        [done|].
      rewrite bind_run.
      pose proof (vote_spec PIL_decodes l' w1) as (_ & Hs).
      destruct (vote PIL_decodes l' w1) as [w2 [[]|e]]; cbn [fst snd] in *.
      - specialize (IH' w2). destruct Hs as [[-> _]|[? _]]; lia.
      - destruct Hs as [[-> _]|[? _]]; lia. }
    destruct Hstep as [[_ ?]|[Hi Hin]]; [done|].
    rewrite <- Hn in Hlt.
    destruct (IH w1) as [Hd Hq]; [by rewrite Hmode1 | done |].
    rewrite Hn in Hlt.
    destruct Hdisk as [Hd1 Hq1]; [lia|]. by rewrite Hd, Hq, Hd1, Hq1.
  - destruct Hstep as [[-> _]|[Hi Hin]]; [done|].
    apply Hdisk. lia.
Qed.
End ManifestRuns.

(** ** Saving and resuming *)

Lemma save_ok w d ptf :
  out_dict (self w) = Some d -> out_file (self w) = Some ptf ->
  Forall (fun k => open_w_check (disk w) (manifest_path ptf k) = None) (dict_keys d) ->
  save w = (World (self w) (write_manifests ptf d (dict_keys d) (disk w)), Returned tt).
Proof.
  intros Hd Hof Hchk. unfold save, this. rewrite bind_run. cbn [self]. rewrite Hd.
  destruct w as [g fs]. by apply save_loop.
Qed.

(** A loop of [save] that returned has written every manifest in turn. *)
Lemma save_loop_returned g ptf d :
  out_file g = Some ptf ->
  forall ks fs w',
  ks ⊆ dict_keys d ->
  PyM.for_each ks (fun kk =>
    match out_file g with
    | None => PyM.raise TypeError
    | Some ptf =>
        (entries <- PyM.lift (dict_getitem d kk) ;;
         on_disk (fun fs => open_w fs (manifest_path ptf kk) (manifest_text entries)))%py
    end) (World g fs)
  = (w', Returned tt) ->
  w' = World g (write_manifests ptf d ks fs).
Proof.
  intros Hof. rewrite Hof.
  induction ks as [|k ks IH]; intros fs w' Hsub; cbn [PyM.for_each].
  - by intros [= <-].
  - rewrite !bind_run. unfold PyM.lift, dict_getitem.
    destruct (dict_get d k) as [entries|] eqn:Hget; [|done].
    unfold on_disk, open_w. cbn [disk self].
    destruct (open_w_check fs (manifest_path ptf k)); [done|].
    intros Hrest. apply IH in Hrest; [|intros x Hx; apply Hsub; by right].
    rewrite Hrest. unfold write_manifests. cbn [fold_left]. by rewrite Hget.
Qed.

Lemma save_returned w w' d ptf :
  out_dict (self w) = Some d -> out_file (self w) = Some ptf ->
  save w = (w', Returned tt) ->
  w' = World (self w) (write_manifests ptf d (dict_keys d) (disk w)).
Proof.
  intros Hd Hof. unfold save, this. rewrite bind_run. cbn [self]. rewrite Hd.
  destruct w as [g fs]. by apply save_loop_returned.
Qed.

Lemma Forall2_map_r_in {A B} (P : A -> B -> Prop) (f : A -> B) l :
  (forall x, x ∈ l -> P x (f x)) -> Forall2 P l (map f l).
Proof.
  induction l as [|x l IH]; intros H; cbn [map]; constructor.
  - apply H. by left.
  - apply IH. intros y Hy. apply H. by right.
Qed.

Lemma NoDup_map_inv_elem {A B} (f : A -> B) (l : list A) :
  NoDup (map f l) -> NoDup l.
Proof.
  induction l as [|x l IH]; cbn [map]; intros Hnd; [constructor|].
  apply NoDup_cons in Hnd as [Hx Hnd]. constructor; [|by apply IH].
  intros Hin. apply Hx. by apply list_elem_of_In, in_map, list_elem_of_In.
Qed.

Lemma sum_list_cons x l : sum_list (x :: l) = x + sum_list l.
Proof. reflexivity. Qed.

(** With distinct keys, the lists found under the keys are all the entries. *)
Lemma dict_total_by_keys d :
  NoDup (dict_keys d) ->
  sum_list (map (fun k => length (default [] (dict_get d k))) (dict_keys d))
  = dict_total d.
Proof.
  unfold dict_total, dict_keys.
  induction d as [|[k v] d IH]; cbn [map fst snd]; [done|].
  intros Hnd. apply NoDup_cons in Hnd as [Hk Hnd].
  rewrite !sum_list_cons. cbn [dict_get]. rewrite String.eqb_refl. cbn [default].
  rewrite <- IH by done. f_equal. f_equal. apply map_ext_in. intros k' Hk'.
  destruct (String.eqb_spec k k') as [->|]; [|done].
  exfalso. apply Hk. by apply list_elem_of_In.
Qed.

Lemma sum_list_map_ext {A} (f g : A -> nat) l :
  (forall x, x ∈ l -> f x = g x) -> sum_list (map f l) = sum_list (map g l).
Proof.
  intros H. f_equal. apply map_ext_in. intros x Hx. apply H. by apply list_elem_of_In.
Qed.

(** The manifests that [save] leaves are read back by the resume as one line
    per entry. *)
Lemma resume_after_write ptf d fs :
  NoDup (map (manifest_path ptf) (dict_keys d)) ->
  (forall k es, dict_get d k = Some es ->
                Forall (fun line => no_line_break (os_path_basename line) = true) es) ->
  forall labs,
    _restart_from_file (Some (dict_keys d)) labs ptf
                       (write_manifests ptf d (dict_keys d) fs)
    = Returned (dict_total d).
Proof.
  intros Hnd Hlines labs. unfold _restart_from_file.
  etransitivity.
  { apply (count_manifests_present (write_manifests ptf d (dict_keys d) fs)
             (manifest_path ptf) (dict_keys d)
             (map (fun k => manifest_text (default [] (dict_get d k))) (dict_keys d))
             0).
    apply Forall2_map_r_in. intros k Hk. by apply write_manifests_lookup. }
  f_equal. cbn [Nat.add]. rewrite map_map.
  rewrite <- (dict_total_by_keys d) by (by eapply NoDup_map_inv_elem).
  apply sum_list_map_ext. intros k Hk.
  apply count_lines_manifest_text.
  destruct (dict_get d k) as [entries|] eqn:Hget; [|constructor]. cbn [default].
  by eapply Hlines.
Qed.

Section SaveResume.
Variable PIL_decodes : string -> bool.

(** X4: the vote on the last image in manifest mode, for a label of the
    dict, with every manifest file open to writing and distinct labels
    having distinct manifest files: the vote returns, the session is
    complete, the window is asked to quit, and the manifest files hold the
    lists of the dict with this last decision in place. *)
Theorem last_vote_saves_and_quits label w d entries p ptf :
  out_dict (self w) = Some d ->
  dict_get d label = Some entries ->
  paths (self w) !! index (self w) = Some p ->
  index (self w) + 1 = n_paths (self w) ->
  out_file (self w) = Some ptf ->
  str_nonempty ptf = true ->
  NoDup (map (manifest_path ptf) (dict_keys d)) ->
  Forall (fun k => open_w_check (disk w) (manifest_path ptf k) = None) (dict_keys d) ->
  snd (vote PIL_decodes label w) = Returned tt /\
  is_complete (self (fst (vote PIL_decodes label w))) = true /\
  master_quit (self (fst (vote PIL_decodes label w))) = true /\
  files (disk (fst (vote PIL_decodes label w))) !! manifest_path ptf label
  = Some (manifest_text (entries ++ [p])) /\
  (forall k es, k <> label -> dict_get d k = Some es ->
     files (disk (fst (vote PIL_decodes label w))) !! manifest_path ptf k
     = Some (manifest_text es)).
Proof.
  intros Hd Hget Hp Hlast Hof Hptf Hnd Hchk.
  rewrite (vote_manifest_run PIL_decodes _ _ _ _ _ Hd Hget Hp).
  rewrite show_next_image_run. gui_simpl. cbn zeta.
  rewrite Hlast, Nat.ltb_irrefl, Hof. cbn [file_truthy]. rewrite Hptf.
  set (d1 := dict_setitem d label (entries ++ [p])%list).
  assert (dict_keys d1 = dict_keys d) as Hk1 by (by eapply dict_keys_setitem).
  rewrite (save_ok _ d1 ptf); gui_simpl; [|done|done|by rewrite Hk1].
  split; [done|]. split.
  { unfold is_complete. gui_simpl. by rewrite Nat.ltb_irrefl. }
  split; [done|]. rewrite Hk1.
  assert (label ∈ dict_keys d) as Hin.
  { destruct (decide (label ∈ dict_keys d)) as [|Hnot]; [done|].
    apply dict_get_None in Hnot. congruence. }
  split.
  - rewrite write_manifests_lookup by done.
    unfold d1. by rewrite dict_get_setitem, String.eqb_refl.
  - intros k es Hk Hes.
    rewrite write_manifests_lookup; [|done|].
    + unfold d1. rewrite dict_get_setitem.
      destruct (String.eqb_spec label k); [congruence|]. by rewrite Hes.
    + destruct (decide (k ∈ dict_keys d)) as [|Hnot]; [done|].
      apply dict_get_None in Hnot. congruence.
Qed.

(** X5: what [save] writes, the resume reads back.  After a [save] that
    returned, with distinct manifest files for distinct labels and image
    names without line breaks, [_restart_from_file] over the labels of the
    dict returns the number of entries of the dict, that is, the number of
    recorded decisions. *)
Theorem resume_counts_saved_entries w w' d ptf :
  out_dict (self w) = Some d ->
  out_file (self w) = Some ptf ->
  save w = (w', Returned tt) ->
  NoDup (map (manifest_path ptf) (dict_keys d)) ->
  (forall k es, dict_get d k = Some es ->
                Forall (fun line => no_line_break (os_path_basename line) = true) es) ->
  forall labs,
    _restart_from_file (Some (dict_keys d)) labs ptf (disk w') = Returned (dict_total d).
Proof.
  intros Hd Hof Hsave Hnd Hlines labs.
  apply (save_returned _ _ _ _ Hd Hof) in Hsave. subst w'. cbn [disk].
  by apply resume_after_write.
Qed.
End SaveResume.

Section CompleteRun.
Variable PIL_decodes : string -> bool.

Lemma decided_for_Forall (P : string -> Prop) k ps : forall ls,
  Forall P ps -> Forall P (decided_for k ps ls).
Proof.
  induction ps as [|p ps IH]; intros ls Hps; [constructor|].
  apply Forall_cons in Hps as [Hp Hps].
  destruct ls as [|l ls]; cbn [decided_for]; [constructor|].
  destruct (String.eqb l k); [constructor; [done|]|]; by apply IH.
Qed.

(** A run of votes in manifest mode that ends the session leaves the files
    that the last vote's [save] wrote from the final dict. *)
Lemma votes_complete_disk ls : forall g fs w' d ptf,
  n_paths g = length (paths g) ->
  out_dict g = Some d -> dict_truthy (Some d) = true ->
  out_file g = Some ptf -> str_nonempty ptf = true ->
  votes PIL_decodes ls (World g fs) = (w', Returned tt) ->
  ls <> [] ->
  index g + length ls = n_paths g ->
  exists d',
    out_dict (self w') = Some d' /\
    disk w' = write_manifests ptf d' (dict_keys d') fs.
Proof.
  induction ls as [|l ls IH]; intros g fs w' d ptf Hn Hd Hmode Hof Hptf Hvotes Hne Hlen;
    [done|].
  unfold votes in Hvotes. cbn [PyM.for_each] in Hvotes. rewrite bind_run in Hvotes.
  destruct (vote PIL_decodes l (World g fs)) as [w1 [[]|e]] eqn:Hv; [|done].
  pose proof Hv as Hv'. rewrite vote_run in Hv'. gui_simpl. rewrite Hd in Hv'.
  destruct (paths g !! index g) as [p|] eqn:Hp; [|done].
  destruct d as [|e0 d0]; [done|].
  destruct (dict_get (e0 :: d0) l) as [entries|] eqn:Hget.
  2: { unfold dict_append, dict_getitem in Hv'. by rewrite Hget in Hv'. }
  clear Hv'.
  rewrite (vote_manifest_run PIL_decodes l (World g fs) _ entries p Hd Hget Hp) in Hv.
  cbn [self disk] in Hv.
  set (d1 := dict_setitem (e0 :: d0) l (entries ++ [p])%list) in *.
  assert (dict_truthy (Some d1) = true) as Hmode1 by (by eapply dict_setitem_truthy).
  destruct ls as [|l2 ls].
  - cbn [PyM.for_each] in Hvotes. injection Hvotes as <-.
    cbn [length] in Hlen. rewrite show_next_image_run in Hv. gui_simpl. cbn zeta in Hv.
    rewrite Hlen, Nat.ltb_irrefl, Hof in Hv. cbn [file_truthy] in Hv. rewrite Hptf in Hv.
    destruct (save _) as [w2 [[]|e]] eqn:Hsave; [|done].
    apply (save_returned _ _ d1 ptf) in Hsave; [|done..]. subst w2.
    injection Hv as <-. gui_simpl. by exists d1.
  - cbn [length] in Hlen.
    pose proof (show_next_image_spec PIL_decodes
                  (World (set_out_dict (Some d1) g) fs)) as (Hi & Hs & Ho & _).
    destruct (show_next_image_active PIL_decodes
                (World (set_out_dict (Some d1) g) fs)) as (Hdisk & _).
    { gui_simpl. apply Nat.ltb_lt. lia. }
    rewrite Hv in Hi, Hs, Ho, Hdisk. gui_simpl.
    destruct Hs as (Hp1 & _ & Hof1 & _ & Hn1 & _).
    destruct w1 as [g1 fs1]. gui_simpl. subst fs1.
    apply (IH g1 fs w' d1 ptf); try done; try congruence.
    cbn [length]. lia.
Qed.

(** X6: the manifests of a finished session count the entries of its own
    dict only.  From a constructed session in manifest mode, after a run of
    votes that returned and ended the session, the resume over the files
    that the last vote saved returns the number of entries the dict started
    with plus the number of decisions of this run.  The script starts every
    run with empty lists, also when it resumes at a later index, so that
    the files of a resumed and finished session count [len(paths)] minus
    the resumed index lines, and not [len(paths)]. *)
Theorem finished_run_counts_its_own_decisions
        module_labels lbls pths d ptf fs0 g fs ls w' :
  __init__ PIL_decodes module_labels lbls pths (Some d) (Some ptf) fs0 = Returned g ->
  dict_truthy (Some d) = true ->
  str_nonempty ptf = true ->
  votes PIL_decodes ls (World g fs) = (w', Returned tt) ->
  is_complete (self w') = true ->
  NoDup (map (manifest_path ptf) (dict_keys d)) ->
  (forall k es, dict_get d k = Some es ->
                Forall (fun line => no_line_break (os_path_basename line) = true) es) ->
  Forall (fun line => no_line_break (os_path_basename line) = true) pths ->
  index g + length ls = length pths /\
  forall labs,
    _restart_from_file (Some (dict_keys d)) labs ptf (disk w')
    = Returned (dict_total d + length ls).
Proof.
  intros Hinit Hmode Hptf Hvotes Hdone Hnd Hold Hnew.
  apply init_returned in Hinit as (_ & Hlt & Hp & _ & Hd & Hof & Hn & _).
  destruct (votes_returned PIL_decodes ls (World g fs) w' Hvotes) as (Hi & Hs & _).
  gui_simpl. destruct Hs as (_ & _ & _ & _ & Hn' & _).
  assert (index g + length ls = length pths) as Hlen.
  { unfold is_complete in Hdone. rewrite Hn', Hn, Hi in Hdone.
    destruct (Nat.ltb_spec (index g + length ls) (length pths)); [done|].
    destruct ls as [|l ls]; [cbn [length] in *; lia|].
    destruct (votes_returned PIL_decodes (l :: ls) (World g fs) w' Hvotes)
      as (_ & _ & Hle). gui_simpl. rewrite Hp in Hle. specialize (Hle ltac:(done)). lia. }
  split; [done|]. intros labs.
  assert (ls <> []) as Hne by (intros ->; cbn [length] in Hlen; lia).
  destruct (votes_complete_disk ls g fs w' d ptf) as (d' & Hd' & Hdisk);
    [congruence|done..|congruence|].
  destruct (votes_manifest PIL_decodes ls g fs w' d Hvotes Hd Hmode)
    as (d'' & Hd'' & _ & Hk & Ht & Hall).
  rewrite Hd' in Hd''. injection Hd'' as <-.
  rewrite Hdisk, <- Hk, <- Ht. apply resume_after_write; [by rewrite Hk|].
  intros k es Hes. rewrite Hall in Hes.
  destruct (dict_get d k) as [es0|] eqn:Hes0; [|done]. injection Hes as <-.
  apply Forall_app. split; [by eapply Hold|].
  apply decided_for_Forall. rewrite Hp. by apply Forall_drop.
Qed.
End CompleteRun.

(** ** What the window shows *)

Section Shown.
Variable PIL_decodes : string -> bool.

Lemma show_next_image_display_inv w :
  display_inv (self w) ->
  display_inv (self (fst (show_next_image PIL_decodes w))).
Proof.
  intros [_ Hquit].
  pose proof (show_next_image_spec PIL_decodes w) as (Hi & (_ & _ & _ & _ & Hn & _) & _).
  pose proof (show_next_image_display PIL_decodes w) as (Hp & Hq).
  split; [by rewrite Hp, Hi, Hn|].
  intros Hq'. unfold is_complete in *. rewrite Hi, Hn.
  destruct (Hq Hq') as [Hbefore| ->]; [|done].
  specialize (Hquit Hbefore).
  destruct (Nat.ltb_spec (index (self w)) (n_paths (self w))); [done|].
  by destruct (Nat.ltb_spec (index (self w) + 1) (n_paths (self w))); [lia|].
Qed.

Lemma vote_display_inv label w :
  display_inv (self w) -> display_inv (self (fst (vote PIL_decodes label w))).
Proof.
  intros Hinv. rewrite vote_run.
  destruct (paths (self w) !! index (self w)) as [p|]; [|done].
  destruct (out_dict (self w)) as [[|e d]|].
  1,3: destruct (copyfile _ _ _) as [fs'|]; [|done];
    by apply (show_next_image_display_inv (World (self w) fs')).
  destruct (dict_append _ _ _) as [d'|]; [|done].
  by apply (show_next_image_display_inv (World (set_out_dict (Some d') (self w)) (disk w))).
Qed.

Lemma run_operation_display_inv o w :
  display_inv (self w) -> display_inv (self (fst (run_operation PIL_decodes o w))).
Proof.
  intros Hinv.
  assert (forall event, display_inv (self (fst (vote_key PIL_decodes event w)))) as Hkey.
  { intros event. rewrite vote_key_run.
    destruct (py_int _); [|done]. destruct (py_getitem _ _); [|done].
    by apply vote_display_inv. }
  destruct o as [label|event|recent key event|]; cbn [run_operation].
  - by apply vote_display_inv.
  - apply Hkey.
  - rewrite key_press_run.
    destruct (binding_fires recent key (self w)); [apply Hkey | done].
  - by rewrite save_self.
Qed.

Lemma mainloop_display_inv ops : forall w,
  display_inv (self w) -> display_inv (self (mainloop PIL_decodes ops w)).
Proof.
  induction ops as [|o ops IH]; intros w Hinv; cbn [mainloop fold_left]; [done|].
  apply IH. by apply run_operation_display_inv.
Qed.

(** X7: in every state that the event loop reaches from a constructed
    session, whatever the callbacks did and whether they raised, the
    progress label reads the current index over the number of images, and
    the window has been asked to quit only if the index has reached the
    number of images. *)
Theorem display_follows_session
        module_labels lbls pths odict ofile fs0 g fs ops :
  __init__ PIL_decodes module_labels lbls pths odict ofile fs0 = Returned g ->
  progress_label (self (mainloop PIL_decodes ops (World g fs)))
  = progress_string (index (self (mainloop PIL_decodes ops (World g fs)))) (length pths) /\
  (master_quit (self (mainloop PIL_decodes ops (World g fs))) = true ->
   index (self (mainloop PIL_decodes ops (World g fs))) = length pths).
Proof.
  intros Hinit.
  pose proof (init_inv _ _ _ _ _ _ _ _ Hinit) as Hinv.
  assert (display_inv g) as Hdisp.
  { rewrite init_run in Hinit.
    destruct (start_index _ _ _ _) as [i|]; [|done].
    destruct (pths !! i); [|done]. destruct (open_r fs0 _) as [c|]; [|done].
    destruct (PIL_decodes c); [|done]. injection Hinit as <-. by split. }
  apply init_returned in Hinit as (_ & _ & Hp & _ & _ & _ & Hn & _).
  destruct (mainloop_inv PIL_decodes ops (World g fs) Hinv) as (Hinv' & _ & Hp').
  destruct (mainloop_display_inv ops (World g fs) Hdisp) as [Hprog Hquit].
  gui_simpl. destruct Hinv' as [Hn' _]. rewrite Hp', Hp in Hn'.
  split; [by rewrite Hprog, Hn'|].
  intros Hq. specialize (Hquit Hq).
  apply is_complete_iff in Hquit; [by rewrite Hquit, Hp', Hp|].
  by destruct (mainloop_inv PIL_decodes ops (World g fs) Hinv) as (? & _).
Qed.

(** A vote that returned and left images to review shows the image at the
    new index. *)
Lemma vote_returned_image label w w' :
  vote PIL_decodes label w = (w', Returned tt) ->
  Nat.ltb (index (self w')) (n_paths (self w')) = true ->
  image (self w') = paths (self w') !! index (self w') /\
  is_Some (paths (self w') !! index (self w')).
Proof.
  intros Hv Hlt.
  assert (forall w0,
    show_next_image PIL_decodes w0 = (w', Returned tt) ->
    image (self w') = paths (self w') !! index (self w') /\
    is_Some (paths (self w') !! index (self w'))) as Hshow.
  { intros w0 Hs.
    pose proof (show_next_image_spec PIL_decodes w0) as (Hi & (Hp & _ & _ & _ & Hn & _) & _).
    rewrite Hs in Hi, Hp, Hn. cbn [fst] in *.
    destruct (show_next_image_active PIL_decodes w0) as (_ & _ & _ & Himg).
    { by rewrite <- Hi, <- Hn. }
    rewrite Hs in Himg. cbn [fst snd] in Himg.
    rewrite Hp, Hi. by apply Himg. }
  rewrite vote_run in Hv.
  destruct (paths (self w) !! index (self w)) as [p|]; [|done].
  destruct (out_dict (self w)) as [[|e d]|].
  1,3: destruct (copyfile _ _ _) as [fs'|]; [|done]; by eapply Hshow.
  destruct (dict_append _ _ _) as [d'|]; [|done]. by eapply Hshow.
Qed.

(** X8: the image on the panel is the one the next vote will label.  From a
    constructed session, after any run of votes that returned and left
    images to review, the panel shows the image at the current index. *)
Theorem shown_image_is_current
        module_labels lbls pths odict ofile fs0 g fs ls w' :
  __init__ PIL_decodes module_labels lbls pths odict ofile fs0 = Returned g ->
  votes PIL_decodes ls (World g fs) = (w', Returned tt) ->
  is_complete (self w') = false ->
  image (self w') = pths !! index (self w') /\
  is_Some (pths !! index (self w')).
Proof.
  intros Hinit Hvotes Hactive.
  assert (image g = pths !! index g /\ is_Some (pths !! index g)) as Hstart.
  { rewrite init_run in Hinit.
    destruct (start_index _ _ _ _) as [i|]; [|done].
    destruct (pths !! i) as [p|] eqn:Hp; [|done]. destruct (open_r fs0 _) as [c|]; [|done].
    destruct (PIL_decodes c); [|done]. injection Hinit as <-. gui_simpl.
    rewrite Hp. eauto. }
  apply init_returned in Hinit as (_ & _ & Hp & _).
  destruct (votes_returned PIL_decodes ls (World g fs) w' Hvotes)
    as (_ & (Hp' & _) & _). gui_simpl. rewrite <- Hp in Hstart. rewrite <- Hp, <- Hp'.
  clear Hp Hp'. unfold is_complete in Hactive. apply negb_false_iff in Hactive.
  revert g fs Hvotes Hstart.
  induction ls as [|l ls IH]; intros g fs Hvotes Hstart;
    unfold votes in Hvotes; cbn [PyM.for_each] in Hvotes.
  - injection Hvotes as <-. done.
  - rewrite bind_run in Hvotes.
    destruct (vote PIL_decodes l (World g fs)) as [[g1 fs1] [[]|e]] eqn:Hv; [|done].
    destruct ls as [|l2 ls].
    + cbn [PyM.for_each] in Hvotes. injection Hvotes as <-.
      by eapply vote_returned_image.
    + apply (IH g1 fs1 Hvotes).
      destruct (votes_returned PIL_decodes (l2 :: ls) (World g1 fs1) w' Hvotes)
        as (Hi & (_ & _ & _ & _ & Hn & _) & _). gui_simpl.
      apply (vote_returned_image l (World g fs) (World g1 fs1) Hv). gui_simpl.
      apply Nat.ltb_lt. apply Nat.ltb_lt in Hactive. cbn [length] in Hi. lia.
Qed.

(** X9: when the next image cannot be loaded, a vote in manifest mode has
    already done its work when the exception comes: the decision is in the
    dict and the index has moved, while the panel still shows the image that
    was voted on; no file has been written. *)
Theorem vote_raises_after_recording label w d entries p q err :
  out_dict (self w) = Some d ->
  dict_get d label = Some entries ->
  paths (self w) !! index (self w) = Some p ->
  paths (self w) !! (index (self w) + 1) = Some q ->
  index (self w) + 1 < n_paths (self w) ->
  snd (_load_image PIL_decodes q w) = Raised err ->
  snd (vote PIL_decodes label w) = Raised err /\
  index (self (fst (vote PIL_decodes label w))) = index (self w) + 1 /\
  out_dict (self (fst (vote PIL_decodes label w)))
  = Some (dict_setitem d label (entries ++ [p])) /\
  image (self (fst (vote PIL_decodes label w))) = image (self w) /\
  disk (fst (vote PIL_decodes label w)) = disk w.
Proof.
  intros Hd Hget Hp Hq Hlt Hload.
  rewrite (vote_manifest_run PIL_decodes _ _ _ _ _ Hd Hget Hp).
  rewrite show_next_image_run. gui_simpl. cbn zeta.
  rewrite (proj2 (Nat.ltb_lt _ _) Hlt), Hq, set_image_run. gui_simpl.
  unfold _load_image in Hload.
  destruct (open_r (disk w) q) as [content|e]; cbn [snd] in Hload.
  - destruct (PIL_decodes content); cbn [snd] in Hload; [done|].
    by injection Hload as <-.
  - by injection Hload as <-.
Qed.
End Shown.

(** ** Where a relocated image goes *)

Lemma cut_last_sep_no_sep t :
  has_sep t = false -> cut_last_sep t = (EmptyString, t).
Proof.
  induction t as [|c t IH]; cbn [has_sep cut_last_sep]; [done|].
  intros H. apply orb_false_iff in H as [Hc Ht]. by rewrite IH, Hc.
Qed.

Lemma cut_last_sep_tail_no_sep p : has_sep (snd (cut_last_sep p)) = false.
Proof.
  induction p as [|c p IH]; cbn [cut_last_sep]; [done|].
  destruct (cut_last_sep p) as [[|c' h] t]; cbn [snd] in *.
  - destruct (is_sep c) eqn:Hc; cbn [snd has_sep]; [done|]. by rewrite Hc, IH.
  - done.
Qed.

Lemma cut_last_sep_app a t :
  endswith_sep a = true -> has_sep t = false -> cut_last_sep (a ++ t) = (a, t).
Proof.
  intros Ha Ht. induction a as [|c a IH]; [done|].
  rewrite append_cons. cbn [cut_last_sep].
  destruct a as [|c' a'].
  - cbn [endswith_sep] in Ha. cbn [String.append].
    change (EmptyString ++ t) with t. by rewrite (cut_last_sep_no_sep t Ht), Ha.
  - rewrite IH by exact Ha. done.
Qed.

Lemma endswith_sep_app_sep a : endswith_sep (a ++ String sep EmptyString) = true.
Proof.
  induction a as [|c a IH]; [done|].
  rewrite append_cons. cbn [endswith_sep].
  destruct (a ++ String sep EmptyString) eqn:Ha; [by destruct a|done].
Qed.

Lemma endswith_sep_app a l :
  str_nonempty l = true -> endswith_sep (a ++ l) = endswith_sep l.
Proof.
  intros Hl. induction a as [|c a IH]; [done|].
  rewrite append_cons. cbn [endswith_sep].
  destruct (a ++ l) eqn:Hal; [|done].
  destruct a; [|done]. change (EmptyString ++ l) with l in Hal. by subst l.
Qed.

Lemma join_step_file J f :
  has_sep f = false ->
  cut_last_sep (join_step J f) = (fst (cut_last_sep (join_step J f)), f).
Proof.
  intros Hf. unfold join_step.
  assert (startswith_sep f = false) as ->.
  { destruct f; [done|]. cbn in *. by apply orb_false_iff in Hf as [-> _]. }
  destruct J as [|c J].
  - cbn [str_nonempty negb orb]. change (EmptyString ++ f) with f.
    by rewrite cut_last_sep_no_sep.
  - cbn [str_nonempty negb orb].
    destruct (endswith_sep (String c J)) eqn:He.
    + by rewrite cut_last_sep_app.
    + replace (String c J ++ String sep f)
        with ((String c J ++ String sep EmptyString) ++ f)
        by (by rewrite append_assoc).
      rewrite cut_last_sep_app; [done|apply endswith_sep_app_sep|done].
Qed.

(** X10: the copy keeps the file name of the image, whatever the path and
    whatever the label: the base name of the destination of [_copy_image] is
    the base name of the source. *)
Theorem output_path_keeps_name input_path label :
  os_path_basename (output_path input_path label) = os_path_basename input_path.
Proof.
  unfold output_path, os_path_basename, os_path_split.
  pose proof (cut_last_sep_tail_no_sep input_path) as Hf.
  destruct (cut_last_sep input_path) as [head file_name]. cbn [snd] in *.
  unfold os_path_join. cbn [fold_left].
  by rewrite join_step_file.
Qed.

Lemma rstrip_sep_keeps s :
  str_nonempty s = true -> endswith_sep s = false -> rstrip_sep s = s.
Proof.
  induction s as [|c s IH]; [done|]. intros _ He.
  cbn [rstrip_sep]. destruct s as [|c' s'].
  - cbn [rstrip_sep]. cbn [endswith_sep] in He. by rewrite He.
  - rewrite IH by done. done.
Qed.

Lemma rstrip_sep_app_sep s :
  str_nonempty s = true -> endswith_sep s = false ->
  rstrip_sep (s ++ String sep EmptyString) = s.
Proof.
  induction s as [|c s IH]; [done|]. intros _ He.
  rewrite append_cons. cbn [rstrip_sep]. destruct s as [|c' s'].
  - cbn [endswith_sep] in He. change (EmptyString ++ String sep EmptyString)
      with (String sep EmptyString). cbn [rstrip_sep].
    change (is_sep sep) with true. cbn match. by rewrite He.
  - rewrite IH by done. done.
Qed.

Lemma all_sep_app_false s t :
  all_sep s = false -> all_sep (s ++ t) = false.
Proof.
  induction s as [|c s IH]; [done|]. rewrite append_cons. cbn [all_sep].
  destruct (is_sep c); [|done]. cbn [andb]. apply IH.
Qed.

Lemma endswith_sep_false_all_sep s :
  str_nonempty s = true -> endswith_sep s = false -> all_sep s = false.
Proof.
  induction s as [|c s IH]; [done|]. intros _ He. cbn [all_sep].
  destruct s as [|c' s'].
  - cbn [endswith_sep] in He. by rewrite He.
  - rewrite IH by done. apply andb_false_r.
Qed.

Lemma length_plain_label_join root label :
  str_nonempty label = true -> has_sep label = false ->
  str_nonempty (join_step root label) = true /\
  endswith_sep (join_step root label) = false /\
  String.length root < String.length (join_step root label).
Proof.
  intros Hne Hsep.
  assert (startswith_sep label = false) as Hstart.
  { destruct label; [done|]. cbn in *. by apply orb_false_iff in Hsep as [-> _]. }
  assert (endswith_sep label = false) as Hend.
  { clear Hne Hstart. induction label as [|c l IH]; [done|].
    cbn in Hsep. apply orb_false_iff in Hsep as [Hc Hl].
    cbn [endswith_sep]. destruct l; [done|]. by apply IH. }
  assert (0 < String.length label) as Hlen by (destruct label; [done|cbn; lia]).
  unfold join_step. rewrite Hstart.
  destruct (negb (str_nonempty root) || endswith_sep root).
  - rewrite endswith_sep_app, length_append by done.
    split; [by destruct root, label|]. split; [done|lia].
  - replace (root ++ String sep label)
      with ((root ++ String sep EmptyString) ++ label) by (by rewrite append_assoc).
    rewrite endswith_sep_app, !length_append by done. cbn [String.length].
    split; [by destruct (root ++ String sep EmptyString), label|]. split; [done|lia].
Qed.

(** X11: for a label that is a plain name, not empty and without a
    separator, the destination of the copy is a file of the image's name in
    the folder named after the label inside the image's folder:
    [os.path.split] takes the destination apart into [os.path.join] of the
    image's folder and the label, and the image's file name. *)
Theorem output_path_in_label_folder input_path label :
  str_nonempty label = true ->
  has_sep label = false ->
  os_path_split (output_path input_path label)
  = (os_path_join (os_path_dirname input_path) [label], os_path_basename input_path).
Proof.
  intros Hne Hsep.
  unfold output_path, os_path_dirname, os_path_basename.
  pose proof (cut_last_sep_tail_no_sep input_path) as Hf.
  unfold os_path_split at 2 3.
  destruct (cut_last_sep input_path) as [head file_name]. cbn [fst snd] in *.
  set (root := if str_nonempty head && negb (all_sep head)
               then rstrip_sep head else head).
  unfold os_path_join. cbn [fold_left].
  destruct (length_plain_label_join root label Hne Hsep) as (HJ & HJe & _).
  set (J := join_step root label) in *.
  unfold join_step at 1.
  assert (startswith_sep file_name = false) as ->.
  { destruct file_name; [done|]. cbn in *. by apply orb_false_iff in Hf as [-> _]. }
  rewrite HJ, HJe. cbn [negb orb].
  unfold os_path_split.
  replace (J ++ String sep file_name)
    with ((J ++ String sep EmptyString) ++ file_name) by (by rewrite append_assoc).
  rewrite cut_last_sep_app; [|apply endswith_sep_app_sep|done].
  rewrite all_sep_app_false by (by apply endswith_sep_false_all_sep).
  assert (str_nonempty (J ++ String sep EmptyString) = true) as ->
    by (by destruct J).
  cbn [negb andb]. by rewrite rstrip_sep_app_sep.
Qed.

Section RelocateFiles.
Variable PIL_decodes : string -> bool.

(** X12: a vote in relocate mode copies and never moves.  Whatever the
    outcome, the folders are the same, no file disappears, and every file
    other than the destination, the image itself among them, keeps its
    content; and if the index has moved, the destination holds the content
    of the image. *)
Theorem relocate_vote_only_adds_the_copy label w input_path :
  dict_truthy (out_dict (self w)) = false ->
  paths (self w) !! index (self w) = Some input_path ->
  dirs (disk (fst (vote PIL_decodes label w))) = dirs (disk w) /\
  (forall q, q <> output_path input_path label ->
     files (disk (fst (vote PIL_decodes label w))) !! q = files (disk w) !! q) /\
  files (disk (fst (vote PIL_decodes label w))) !! input_path
  = files (disk w) !! input_path /\
  (forall q, is_Some (files (disk w) !! q) ->
             is_Some (files (disk (fst (vote PIL_decodes label w))) !! q)) /\
  (index (self (fst (vote PIL_decodes label w))) = index (self w) + 1 ->
   is_Some (files (disk w) !! input_path) /\
   files (disk (fst (vote PIL_decodes label w))) !! output_path input_path label
   = files (disk w) !! input_path).
Proof.
  intros Hmode Hp.
  destruct (copyfile (disk w) input_path (output_path input_path label))
    as [fs'|err] eqn:Hcopy.
  - destruct (vote_relocate_copied PIL_decodes label w input_path fs' Hmode Hp Hcopy)
      as [Hi Hd].
    apply copyfile_returned in Hcopy as (text & Hsrc & -> & Hne & _).
    rewrite Hd. cbn [write_file files dirs]. split; [done|].
    split; [intros q Hq; by rewrite lookup_insert_ne|].
    split; [by rewrite lookup_insert_ne|].
    split.
    + intros q Hq. destruct (decide (output_path input_path label = q)) as [<-|Hne'].
      * rewrite lookup_insert_eq. eauto.
      * by rewrite lookup_insert_ne.
    + intros _. rewrite lookup_insert_eq, Hsrc. eauto.
  - assert (vote PIL_decodes label w = (w, Raised err)) as Hv.
    { rewrite vote_run, Hp.
      destruct (out_dict (self w)) as [[|e d]|]; [|done|]; by rewrite Hcopy. }
    rewrite Hv. cbn [fst]. repeat split; try done. all: lia.
Qed.
End RelocateFiles.

(** ** Keys that are not numbers of labels *)

Lemma py_int_not_digit c :
  not_digit c = true -> py_int (String c EmptyString) = Raised ValueError.
Proof.
  destruct c as [[] [] [] [] [] [] [] []]; vm_compute; intros H; done.
Qed.

Section KeyEdges.
Variable PIL_decodes : string -> bool.

(** X13: what [vote_key] does with a key that is not the number of a label.
    A character that is not a digit, or no character at all, raises
    [ValueError]; a number past the last label raises [IndexError]; in both
    cases nothing has changed.  The key 0 is not refused: through the
    negative index it is a vote for the last label. *)
Theorem vote_key_edge_cases w :
  (forall c, not_digit c = true ->
     vote_key PIL_decodes {| char := String c EmptyString |} w = (w, Raised ValueError)) /\
  vote_key PIL_decodes {| char := EmptyString |} w = (w, Raised ValueError) /\
  (forall k, length (labels (self w)) < k ->
     vote_key PIL_decodes {| char := py_str k |} w = (w, Raised IndexError)) /\
  (forall label, last (labels (self w)) = Some label ->
     vote_key PIL_decodes {| char := "0" |} w = vote PIL_decodes label w) /\
  (labels (self w) = [] ->
   vote_key PIL_decodes {| char := "0" |} w = (w, Raised IndexError)).
Proof.
  split; [|split; [|split; [|split]]].
  - intros c Hc. rewrite vote_key_run. cbn [char]. by rewrite py_int_not_digit.
  - by rewrite vote_key_run.
  - intros k Hk. by apply vote_key_out_of_range.
  - intros label Hlast. by apply (vote_key_zero PIL_decodes w label).
  - intros Hnil. rewrite vote_key_run. cbn [char].
    change "0" with (py_str 0).
    by rewrite py_int_py_str, py_getitem_minus_one, Hnil.
Qed.
End KeyEdges.

(** ** A save that fails part of the way *)

(** X14: [save] is not all or nothing.  When the manifest file of one label
    cannot be opened, the exception comes out with the manifests of the
    labels before it, in the order of the dict, already rewritten, and with
    nothing written for that label and the labels after it. *)
Theorem save_stops_at_first_failure w d ptf ks1 k ks2 err :
  out_dict (self w) = Some d ->
  out_file (self w) = Some ptf ->
  dict_keys d = (ks1 ++ k :: ks2)%list ->
  Forall (fun k1 => open_w_check (disk w) (manifest_path ptf k1) = None) ks1 ->
  open_w_check (write_manifests ptf d ks1 (disk w)) (manifest_path ptf k) = Some err ->
  save w = (World (self w) (write_manifests ptf d ks1 (disk w)), Raised err) /\
  (forall q, q ∉ map (manifest_path ptf) ks1 ->
     files (disk (fst (save w))) !! q = files (disk w) !! q) /\
  (NoDup (map (manifest_path ptf) ks1) ->
   forall k1 entries, k1 ∈ ks1 -> dict_get d k1 = Some entries ->
     files (disk (fst (save w))) !! manifest_path ptf k1 = Some (manifest_text entries)).
Proof.
  intros Hd Hof Hkeys Hchk Hfail.
  assert (save w = (World (self w) (write_manifests ptf d ks1 (disk w)), Raised err))
    as Hsave.
  { unfold save, this. rewrite bind_run. cbn [self]. rewrite Hd, Hkeys, Hof.
    assert (forall x, x ∈ (ks1 ++ k :: ks2)%list -> is_Some (dict_get d x)) as Hin.
    { intros x Hx. rewrite <- Hkeys in Hx.
      destruct (dict_get d x) eqn:Hget; [eauto|].
      by apply dict_get_None in Hget. }
    destruct w as [g fs]. cbn [self disk] in *. clear Hd Hof Hkeys.
    revert fs Hchk Hfail Hin.
    induction ks1 as [|k1 ks1 IH]; intros fs Hchk Hfail Hin.
    - cbn [app PyM.for_each]. rewrite !bind_run. unfold PyM.lift, dict_getitem.
      destruct (Hin k) as [entries ->]; [by left|].
      unfold on_disk, open_w. cbn [disk self].
      change (write_manifests ptf d [] fs) with fs in Hfail. by rewrite Hfail.
    - apply Forall_cons in Hchk as [Hk1 Hchk].
      cbn [app PyM.for_each]. rewrite !bind_run. unfold PyM.lift, dict_getitem.
      destruct (Hin k1) as [entries Hget]; [by left|]. rewrite Hget.
      unfold on_disk, open_w. cbn [disk self]. rewrite Hk1.
      change (write_manifests ptf d (k1 :: ks1) fs)
        with (write_manifests ptf d ks1
                (write_file fs (manifest_path ptf k1)
                            (manifest_text (default [] (dict_get d k1))))) in *.
      rewrite Hget in *. cbn [default] in *.
      apply IH; [|done|intros x Hx; apply Hin; by right].
      eapply Forall_impl; [exact Hchk|]. intros k' Hk'. by apply open_w_check_write. }
  split; [done|]. rewrite Hsave. cbn [fst disk]. split.
  - intros q Hq. by apply write_manifests_other.
  - intros Hnd k1 entries Hk1 Hget.
    rewrite write_manifests_lookup by done. by rewrite Hget.
Qed.

(** ** The padding of the picture *)

Section PaddingFits.
Variable Image_allocates : Z * Z -> bool.

(** X15: for a picture and a requested size with sides from 0 to the
    largest C integer, and a canvas that Pillow can allocate,
    [_expand_to_square] gives a canvas of exactly the requested size, with
    the picture in the middle: the margins on the right and at the bottom
    are those on the left and at the top, or one pixel more. *)
Theorem expand_to_square_fits img size :
  (0 <= fst img <= INT_MAX)%Z -> (0 <= snd img <= INT_MAX)%Z ->
  (0 <= fst size <= INT_MAX)%Z -> (0 <= snd size <= INT_MAX)%Z ->
  Image_allocates size = true ->
  exists r,
    _expand_to_square Image_allocates img size = Returned r /\
    canvas r = size /\
    (let right_margin := fst size - (fst (origin r) + fst img) in
     fst (origin r) <= right_margin <= fst (origin r) + 1)%Z /\
    (let bottom_margin := snd size - (snd (origin r) + snd img) in
     snd (origin r) <= bottom_margin <= snd (origin r) + 1)%Z.
Proof.
  intros Hiw Hih Hsw Hsh Halloc.
  destruct img as [w h], size as [sw sh]. cbn [fst snd] in *.
  unfold _expand_to_square, ImageOps_expand, Image_new. cbn [fst snd].
  replace ((sw - w) / 2 + w + (sw - w - (sw - w) / 2))%Z with sw by lia.
  replace ((sh - h) / 2 + h + (sh - h - (sh - h) / 2))%Z with sh by lia.
  destruct (Z.ltb_spec sw 0); [lia|]. destruct (Z.ltb_spec sh 0); [lia|].
  cbn [orb].
  pose proof (Z.div_mod (sw - w) 2 ltac:(lia)).
  pose proof (Z.mod_pos_bound (sw - w) 2 ltac:(lia)).
  pose proof (Z.div_mod (sh - h) 2 ltac:(lia)).
  pose proof (Z.mod_pos_bound (sh - h) 2 ltac:(lia)).
  assert (forall z, (- INT_MAX - 1 <= z <= INT_MAX)%Z -> fits_int z = true) as Hfit.
  { intros z Hz. unfold fits_int. apply andb_true_intro. split; apply Z.leb_le; lia. }
  rewrite (Hfit sw), (Hfit sh), (Hfit ((sw - w) / 2)%Z), (Hfit ((sh - h) / 2)%Z),
    (Hfit ((sw - w) / 2 + w)%Z), (Hfit ((sh - h) / 2 + h)%Z)
    by (unfold INT_MAX in *; lia).
  cbn [andb negb]. rewrite Halloc.
  eexists. split; [done|]. cbn [canvas origin fst snd].
  split; [done|]. split; lia.
Qed.
End PaddingFits.

(** ** The main block *)









Section MainBlock.
Variable PIL_decodes : string -> bool.
Variable os_listdir : filesystem -> string -> outcome (list string).
Variable os_makedirs : filesystem -> string -> outcome filesystem.

(** X16: with [--output copy], which is the default, the script never
    builds the window.  The name [outdict] is bound only in the other
    branch, so that once the label folders are made and the image paths
    collected, [if outdict:] raises [NameError]; and when one of those steps
    raises, that exception ends the script before. *)
Theorem main_copy_mode_never_opens_the_window args fs :
  args_output args = output_copy ->
  returns (snd (main PIL_decodes os_listdir os_makedirs args fs)) = false /\
  (forall fs1 pths,
      make_label_folders os_makedirs (args_folder args) (args_labels args) fs
      = (fs1, Returned tt) ->
      collect_paths os_listdir (args_folder args) (args_textfile args)
                    (args_image_folder args) fs1 = Returned pths ->
      main PIL_decodes os_listdir os_makedirs args fs = (fs1, Raised NameError)).
Proof.
  intros Hcopy.
  assert (main PIL_decodes os_listdir os_makedirs args fs
          = match make_label_folders os_makedirs (args_folder args) (args_labels args) fs
            with
            | (fs1, Returned _) =>
                match collect_paths os_listdir (args_folder args) (args_textfile args)
                                    (args_image_folder args) fs1 with
                | Returned _ => (fs1, Raised NameError)
                | Raised e => (fs1, Raised e)
                end
            | (fs1, Raised e) => (fs1, Raised e)
            end) as ->.
  { unfold main. rewrite Hcopy.
    cbv [PyM.bind PyM.ret PyM.raise PyM.get PyM.lift].
    destruct (make_label_folders _ _ _ fs) as [fs1 [[]|e]]; [|done].
    by destruct (collect_paths _ _ _ _ fs1). }
  destruct (make_label_folders _ _ _ fs) as [fs1 [[]|e]].
  - destruct (collect_paths _ _ _ _ fs1) as [pths|e] eqn:Hpaths.
    + split; [done|]. intros fs2 pths2 [= <-] _. done.
    + split; [done|]. intros fs2 pths2 [= <-]. by rewrite Hpaths.
  - split; [done|]. by intros fs2 pths2 [=].
Qed.


Lemma lines_keepends_count s :
  count_lf_lines false s = length (lines_keepends s) /\
  count_lf_lines true s = Nat.max 1 (length (lines_keepends s)).
Proof.
  induction s as [|c s [IHf IHt]]; [done|].
  cbn [count_lf_lines lines_keepends].
  destruct (Ascii.eqb c LF).
  - cbn [length]. rewrite IHf. split; lia.
  - rewrite IHt. destruct (lines_keepends s); cbn [length]; split; lia.
Qed.

(** X18: with a list file, every line of the file, blank lines included,
    gives one image path, so that the number of images is the number of
    lines that the resume would count in that file.  An empty list file
    gives no image whether or not an image folder was named; a list file
    with a line and no image folder raises [TypeError]. *)
Theorem list_file_gives_one_path_per_line input_folder c name imgfold fs text :
  files fs !! os_path_join input_folder [String c name] = Some text ->
  (forall dir, imgfold = Some dir ->
     exists pths,
       collect_paths os_listdir input_folder (Some (String c name)) imgfold fs
       = Returned pths /\
       length pths = count_lines text) /\
  (count_lines text = 0 ->
   collect_paths os_listdir input_folder (Some (String c name)) imgfold fs
   = Returned []) /\
  (0 < count_lines text -> imgfold = None ->
   collect_paths os_listdir input_folder (Some (String c name)) imgfold fs
   = Raised TypeError).
Proof.
  intros Hfile. unfold collect_paths, open_r. rewrite Hfile.
  unfold count_lines. rewrite (proj1 (lines_keepends_count _)).
  fold (readlines text).
  destruct (readlines text) as [|line lines]; cbn [length].
  - split; [|split; [done|lia]]. intros dir ->. by exists [].
  - split; [|split; [lia|by intros _ ->]].
    intros dir ->. eexists. split; [done|]. by rewrite length_map.
Qed.

(** X19: without a list file, the images are the names of the listing that
    end in [.jpeg], [.tiff] or [.jpg], in the order of the listing, each
    under the input folder: the base names of the paths are exactly those
    names, which are what the manifests will record. *)
Theorem listing_gives_the_image_names input_folder txt imgfold fs names :
  txt = None \/ txt = Some EmptyString ->
  os_listdir fs input_folder = Returned names ->
  Forall (fun file => has_sep file = false) names ->
  exists pths,
    collect_paths os_listdir input_folder txt imgfold fs = Returned pths /\
    map os_path_basename pths = filter (fun file => is_image_name file = true) names /\
    length pths <= length names.
Proof.
  intros Htxt Hlist Hnames.
  assert (collect_paths os_listdir input_folder txt imgfold fs
          = Returned (map (fun file => os_path_join input_folder [file])
                          (filter (fun file => is_image_name file = true) names))) as ->.
  { unfold collect_paths. destruct Htxt as [->| ->]; by rewrite Hlist. }
  eexists. split; [done|]. split.
  - rewrite map_map. clear Hlist.
    induction Hnames as [|file names Hfile _ IH]; [done|].
    rewrite filter_cons. case_decide; [|done].
    cbn [map]. rewrite IH. f_equal.
    unfold os_path_basename, os_path_join. cbn [fold_left].
    by rewrite join_step_file.
  - rewrite length_map. apply length_filter.
Qed.
End MainBlock.

Section Folders.
Variable os_makedirs : filesystem -> string -> outcome filesystem.

(** X20: over a folder that already has something under the name of every
    label, a folder or a file, making the label folders changes nothing and
    never calls [os.makedirs]: whatever [os.makedirs] would do, the step
    returns with the file system as it was. *)
Theorem make_label_folders_keeps_existing input_folder labels fs :
  Forall (fun label => os_path_exists fs (os_path_join input_folder [label]) = true)
         labels ->
  make_label_folders os_makedirs input_folder labels fs = (fs, Returned tt).
Proof.
  unfold make_label_folders.
  induction 1 as [|label labels Hlabel _ IH]; cbn [PyM.for_each]; [done|].
  rewrite bind_run. unfold make_folder at 1. by rewrite Hlabel.
Qed.
End Folders.

Section RelocateEnd.
Variable PIL_decodes : string -> bool.

(** X21: the vote on the last image in relocate mode, without a manifest
    directory: when the copy succeeds the vote returns, the session is
    complete, the window is asked to quit, and the file system is the one
    the copy left; nothing is saved. *)
Theorem last_relocate_vote_quits label w input_path fs' :
  dict_truthy (out_dict (self w)) = false ->
  file_truthy (out_file (self w)) = false ->
  paths (self w) !! index (self w) = Some input_path ->
  index (self w) + 1 = n_paths (self w) ->
  copyfile (disk w) input_path (output_path input_path label) = Returned fs' ->
  snd (vote PIL_decodes label w) = Returned tt /\
  disk (fst (vote PIL_decodes label w)) = fs' /\
  is_complete (self (fst (vote PIL_decodes label w))) = true /\
  master_quit (self (fst (vote PIL_decodes label w))) = true /\
  image (self (fst (vote PIL_decodes label w))) = image (self w).
Proof.
  intros Hmode Hfile Hp Hlast Hcopy.
  assert (vote PIL_decodes label w
          = show_next_image PIL_decodes (World (self w) fs')) as ->.
  { rewrite vote_run, Hp.
    destruct (out_dict (self w)) as [[|e d]|]; [|done|]; by rewrite Hcopy. }
  rewrite show_next_image_run. gui_simpl. cbn zeta.
  rewrite Hlast, Nat.ltb_irrefl, Hfile. gui_simpl.
  unfold is_complete. gui_simpl. by rewrite Nat.ltb_irrefl.
Qed.
End RelocateEnd.

(** ** The further theorems at work on the small session *)

Lemma vote_records_under_label_witness :
  out_dict manifest_session = Some demo_dict /\
  dict_get demo_dict "dog" = Some [] /\
  index (self (fst (vote every_file_decodes "dog" (World manifest_session demo_fs))))
  = 0 + 1 /\
  exists d',
    out_dict (self (fst (vote every_file_decodes "dog" (World manifest_session demo_fs))))
    = Some d' /\
    dict_get d' "dog" = Some ["in/a.jpg"] /\
    dict_get d' "cat" = Some [].
Proof.
  destruct (vote_records_under_label every_file_decodes "dog"
              (World manifest_session demo_fs) demo_dict [] "in/a.jpg"
              eq_refl eq_refl eq_refl) as (Hi & d' & Hd' & _ & Hdog & Hother & _).
  split; [reflexivity|]. split; [reflexivity|]. split; [exact Hi|].
  exists d'. split; [exact Hd'|]. split; [exact Hdog|].
  rewrite (Hother "cat") by discriminate. reflexivity.
Defined.

Lemma manifest_after_votes_witness :
  votes every_file_decodes ["cat"; "dog"; "cat"] (World manifest_session demo_fs)
  = (manifest_done, Returned tt) /\
  exists d',
    out_dict (self manifest_done) = Some d' /\
    dict_total d' = 0 + 3 /\
    dict_get d' "cat" = Some ["in/a.jpg"; "in/c.jpg"] /\
    dict_get d' "dog" = Some ["in/b.jpg"].
Proof.
  assert (__init__ every_file_decodes (Some demo_labels) demo_labels demo_paths
            (Some demo_dict) (Some "in") demo_fs = Returned manifest_session) as Hinit
    by (vm_compute; reflexivity).
  assert (votes every_file_decodes ["cat"; "dog"; "cat"] (World manifest_session demo_fs)
          = (manifest_done, Returned tt)) as Hvotes by (vm_compute; reflexivity).
  destruct (manifest_after_votes every_file_decodes _ _ _ _ _ _ _ _ _ _
              Hinit eq_refl Hvotes) as (d' & Hd' & _ & Ht & Hall).
  split; [exact Hvotes|]. exists d'. split; [exact Hd'|]. split; [exact Ht|].
  split; [exact (Hall "cat" [] eq_refl) | exact (Hall "dog" [] eq_refl)].
Defined.

Lemma manifest_votes_write_nothing_witness :
  dict_truthy (out_dict manifest_session) = true /\
  index (self manifest_last) < n_paths manifest_session /\
  disk manifest_last = demo_fs /\
  master_quit (self manifest_last) = false.
Proof.
  assert (index (self (fst (votes every_file_decodes ["cat"; "dog"]
                              (World manifest_session demo_fs))))
          < n_paths (self (World manifest_session demo_fs))) as Hlt
    by (vm_compute; lia).
  split; [reflexivity|]. split; [exact Hlt|].
  exact (manifest_votes_write_nothing every_file_decodes ["cat"; "dog"]
           (World manifest_session demo_fs) eq_refl Hlt).
Defined.

Lemma last_vote_saves_and_quits_witness :
  out_dict (self manifest_last) = Some [("cat", ["in/a.jpg"]); ("dog", ["in/b.jpg"])] /\
  index (self manifest_last) + 1 = n_paths (self manifest_last) /\
  snd (vote every_file_decodes "cat" manifest_last) = Returned tt /\
  master_quit (self (fst (vote every_file_decodes "cat" manifest_last))) = true /\
  files (disk (fst (vote every_file_decodes "cat" manifest_last)))
    !! manifest_path "in" "cat" = Some (manifest_text ["in/a.jpg"; "in/c.jpg"]) /\
  files (disk (fst (vote every_file_decodes "cat" manifest_last)))
    !! manifest_path "in" "dog" = Some (manifest_text ["in/b.jpg"]).
Proof.
  assert (out_dict (self manifest_last)
          = Some [("cat", ["in/a.jpg"]); ("dog", ["in/b.jpg"])]) as Hd
    by (vm_compute; reflexivity).
  assert (paths (self manifest_last) !! index (self manifest_last) = Some "in/c.jpg")
    as Hp by (vm_compute; reflexivity).
  assert (index (self manifest_last) + 1 = n_paths (self manifest_last)) as Hlast
    by (vm_compute; reflexivity).
  assert (out_file (self manifest_last) = Some "in") as Hof by (vm_compute; reflexivity).
  assert (NoDup (map (manifest_path "in")
                   (dict_keys [("cat", ["in/a.jpg"]); ("dog", ["in/b.jpg"])]))) as Hnd
    by (apply (bool_decide_unpack _); vm_compute; exact I).
  assert (Forall (fun k => open_w_check (disk manifest_last) (manifest_path "in" k) = None)
            (dict_keys [("cat", ["in/a.jpg"]); ("dog", ["in/b.jpg"])])) as Hchk
    by (repeat constructor; vm_compute; reflexivity).
  destruct (last_vote_saves_and_quits every_file_decodes "cat" manifest_last _
              ["in/a.jpg"] "in/c.jpg" "in" Hd eq_refl Hp Hlast Hof eq_refl Hnd Hchk)
    as (Hret & _ & Hquit & Hcat & Hothers).
  split; [exact Hd|]. split; [exact Hlast|]. split; [exact Hret|].
  split; [exact Hquit|]. split; [exact Hcat|].
  apply (Hothers "dog"); [discriminate|reflexivity].
Defined.

Lemma resume_counts_saved_entries_witness :
  save (World (self manifest_done) demo_fs)
  = (fst (save (World (self manifest_done) demo_fs)), Returned tt) /\
  dict_total [("cat", ["in/a.jpg"; "in/c.jpg"]); ("dog", ["in/b.jpg"])] = 3 /\
  _restart_from_file (Some demo_labels) demo_labels "in"
                     (disk (fst (save (World (self manifest_done) demo_fs))))
  = Returned 3.
Proof.
  assert (out_dict (self manifest_done)
          = Some [("cat", ["in/a.jpg"; "in/c.jpg"]); ("dog", ["in/b.jpg"])]) as Hd
    by (vm_compute; reflexivity).
  assert (out_file (self manifest_done) = Some "in") as Hof by (vm_compute; reflexivity).
  assert (save (World (self manifest_done) demo_fs)
          = (fst (save (World (self manifest_done) demo_fs)), Returned tt)) as Hsave
    by (vm_compute; reflexivity).
  assert (NoDup (map (manifest_path "in")
                   (dict_keys [("cat", ["in/a.jpg"; "in/c.jpg"]); ("dog", ["in/b.jpg"])])))
    as Hnd by (apply (bool_decide_unpack _); vm_compute; exact I).
  assert (forall k es,
            dict_get [("cat", ["in/a.jpg"; "in/c.jpg"]); ("dog", ["in/b.jpg"])] k = Some es ->
            Forall (fun line => no_line_break (os_path_basename line) = true) es) as Hlines.
  { intros k es. cbn [dict_get].
    destruct (String.eqb "cat" k); [intros [= <-]; repeat constructor|].
    destruct (String.eqb "dog" k); [intros [= <-]; repeat constructor|discriminate]. }
  split; [exact Hsave|]. split; [reflexivity|].
  exact (resume_counts_saved_entries (World (self manifest_done) demo_fs) _ _ "in"
           Hd Hof Hsave Hnd Hlines demo_labels).
Defined.

(** A session that resumed at the third image and finished: its manifests
    hold the one decision of this run, and the two lines that the resume
    had counted are gone. *)
Lemma finished_run_counts_its_own_decisions_witness :
  __init__ every_file_decodes (Some demo_labels) demo_labels demo_paths
           (Some demo_dict) (Some "in") resumed_fs = Returned resumed_session /\
  index resumed_session = 2 /\
  is_complete (self (fst (votes every_file_decodes ["dog"]
                                (World resumed_session resumed_fs)))) = true /\
  _restart_from_file (Some demo_labels) demo_labels "in"
    (disk (fst (votes every_file_decodes ["dog"] (World resumed_session resumed_fs))))
  = Returned (0 + 1).
Proof.
  assert (__init__ every_file_decodes (Some demo_labels) demo_labels demo_paths
            (Some demo_dict) (Some "in") resumed_fs = Returned resumed_session) as Hinit
    by (vm_compute; reflexivity).
  assert (votes every_file_decodes ["dog"] (World resumed_session resumed_fs)
          = (fst (votes every_file_decodes ["dog"] (World resumed_session resumed_fs)),
             Returned tt)) as Hvotes by (vm_compute; reflexivity).
  assert (is_complete (self (fst (votes every_file_decodes ["dog"]
                                        (World resumed_session resumed_fs)))) = true)
    as Hdone by (vm_compute; reflexivity).
  assert (NoDup (map (manifest_path "in") (dict_keys demo_dict))) as Hnd
    by (apply (bool_decide_unpack _); vm_compute; exact I).
  assert (forall k es, dict_get demo_dict k = Some es ->
            Forall (fun line => no_line_break (os_path_basename line) = true) es) as Hold.
  { intros k es. cbn [dict_get demo_dict].
    destruct (String.eqb "cat" k); [intros [= <-]; constructor|].
    destruct (String.eqb "dog" k); [intros [= <-]; constructor|discriminate]. }
  assert (Forall (fun line => no_line_break (os_path_basename line) = true) demo_paths)
    as Hnew by (repeat constructor).
  split; [exact Hinit|]. split; [reflexivity|]. split; [exact Hdone|].
  exact (proj2 (finished_run_counts_its_own_decisions every_file_decodes _ _ _ _ _ _ _ _ _ _
                  Hinit eq_refl eq_refl Hvotes Hdone Hnd Hold Hnew) demo_labels).
Defined.

Lemma display_follows_session_witness :
  __init__ every_file_decodes (Some demo_labels) demo_labels demo_paths
           (Some demo_dict) (Some "in") demo_fs = Returned manifest_session /\
  progress_label
    (self (mainloop every_file_decodes
             [KeyPress [] "2" {| char := "2" |}; Vote "bird"; Save; Vote "cat"]
             (World manifest_session demo_fs)))
  = progress_string
      (index (self (mainloop every_file_decodes
                      [KeyPress [] "2" {| char := "2" |}; Vote "bird"; Save; Vote "cat"]
                      (World manifest_session demo_fs)))) 3.
Proof.
  assert (__init__ every_file_decodes (Some demo_labels) demo_labels demo_paths
            (Some demo_dict) (Some "in") demo_fs = Returned manifest_session) as Hinit
    by (vm_compute; reflexivity).
  split; [exact Hinit|].
  exact (proj1 (display_follows_session every_file_decodes _ _ _ _ _ _ _ demo_fs
                  [KeyPress [] "2" {| char := "2" |}; Vote "bird"; Save; Vote "cat"] Hinit)).
Defined.

Lemma shown_image_is_current_witness :
  votes every_file_decodes ["cat"; "dog"] (World manifest_session demo_fs)
  = (manifest_last, Returned tt) /\
  is_complete (self manifest_last) = false /\
  image (self manifest_last) = demo_paths !! index (self manifest_last).
Proof.
  assert (__init__ every_file_decodes (Some demo_labels) demo_labels demo_paths
            (Some demo_dict) (Some "in") demo_fs = Returned manifest_session) as Hinit
    by (vm_compute; reflexivity).
  assert (votes every_file_decodes ["cat"; "dog"] (World manifest_session demo_fs)
          = (manifest_last, Returned tt)) as Hvotes by (vm_compute; reflexivity).
  assert (is_complete (self manifest_last) = false) as Hactive
    by (vm_compute; reflexivity).
  split; [exact Hvotes|]. split; [exact Hactive|].
  exact (proj1 (shown_image_is_current every_file_decodes _ _ _ _ _ _ _ _ _ _
                  Hinit Hvotes Hactive)).
Defined.

Lemma vote_raises_after_recording_witness :
  snd (_load_image every_file_decodes "in/b.jpg" (World manifest_session missing_b_fs))
  = Raised FileNotFoundError /\
  snd (vote every_file_decodes "cat" (World manifest_session missing_b_fs))
  = Raised FileNotFoundError /\
  index (self (fst (vote every_file_decodes "cat" (World manifest_session missing_b_fs))))
  = 0 + 1 /\
  image (self (fst (vote every_file_decodes "cat" (World manifest_session missing_b_fs))))
  = Some "in/a.jpg".
Proof.
  assert (snd (_load_image every_file_decodes "in/b.jpg"
                 (World manifest_session missing_b_fs)) = Raised FileNotFoundError)
    as Hload by (vm_compute; reflexivity).
  assert (index (self (World manifest_session missing_b_fs)) + 1
          < n_paths (self (World manifest_session missing_b_fs))) as Hlt
    by (vm_compute; lia).
  destruct (vote_raises_after_recording every_file_decodes "cat"
              (World manifest_session missing_b_fs) demo_dict [] "in/a.jpg" "in/b.jpg"
              FileNotFoundError eq_refl eq_refl eq_refl eq_refl Hlt Hload)
    as (Hret & Hi & _ & Himg & _).
  split; [exact Hload|]. split; [exact Hret|]. split; [exact Hi|]. exact Himg.
Defined.

Lemma output_path_in_label_folder_witness :
  os_path_split (output_path "in/a.jpg" "cat") = ("in/cat", "a.jpg").
Proof.
  exact (output_path_in_label_folder "in/a.jpg" "cat" eq_refl eq_refl).
Defined.

Lemma relocate_vote_only_adds_the_copy_witness :
  dict_truthy (out_dict relocate_session) = false /\
  files (disk (fst (vote every_file_decodes "cat" (World relocate_session demo_fs))))
    !! "in/a.jpg" = files demo_fs !! "in/a.jpg" /\
  dirs (disk (fst (vote every_file_decodes "cat" (World relocate_session demo_fs))))
  = dirs demo_fs.
Proof.
  destruct (relocate_vote_only_adds_the_copy every_file_decodes "cat"
              (World relocate_session demo_fs) "in/a.jpg" eq_refl eq_refl)
    as (Hdirs & _ & Hsrc & _).
  split; [reflexivity|]. split; [exact Hsrc | exact Hdirs].
Defined.

Lemma save_stops_at_first_failure_witness :
  open_w_check blocked_dog_fs (manifest_path "in" "cat") = None /\
  snd (save (World (self manifest_done) blocked_dog_fs)) = Raised IsADirectoryError /\
  files (disk (fst (save (World (self manifest_done) blocked_dog_fs))))
    !! manifest_path "in" "cat" = Some (manifest_text ["in/a.jpg"; "in/c.jpg"]).
Proof.
  assert (out_dict (self manifest_done)
          = Some [("cat", ["in/a.jpg"; "in/c.jpg"]); ("dog", ["in/b.jpg"])]) as Hd
    by (vm_compute; reflexivity).
  assert (out_file (self manifest_done) = Some "in") as Hof by (vm_compute; reflexivity).
  assert (open_w_check blocked_dog_fs (manifest_path "in" "cat") = None) as Hcat
    by (vm_compute; reflexivity).
  assert (open_w_check
            (write_manifests "in"
               [("cat", ["in/a.jpg"; "in/c.jpg"]); ("dog", ["in/b.jpg"])] ["cat"]
               blocked_dog_fs)
            (manifest_path "in" "dog") = Some IsADirectoryError) as Hdog
    by (vm_compute; reflexivity).
  assert (Forall (fun k1 => open_w_check blocked_dog_fs (manifest_path "in" k1) = None)
            ["cat"]) as Hbefore by (constructor; [exact Hcat|constructor]).
  destruct (save_stops_at_first_failure (World (self manifest_done) blocked_dog_fs)
              _ "in" ["cat"] "dog" [] IsADirectoryError Hd Hof eq_refl Hbefore Hdog)
    as (Hsave & _ & Hwritten).
  split; [exact Hcat|]. split; [rewrite Hsave; reflexivity|].
  apply (Hwritten (NoDup_singleton _) "cat"); [by left|reflexivity].
Defined.

Lemma expand_to_square_fits_witness :
  _expand_to_square always_allocates (799, 450)%Z (800, 600)%Z
  = Returned (Padded (800, 600)%Z (0, 75)%Z) /\
  exists r, _expand_to_square always_allocates (803, 450)%Z (800, 600)%Z = Returned r /\
            canvas r = (800, 600)%Z.
Proof.
  split; [reflexivity|].
  destruct (expand_to_square_fits always_allocates (803, 450)%Z (800, 600)%Z)
    as (r & Hr & Hc & _); [cbn; unfold INT_MAX; lia..|reflexivity|].
  exists r. split; [exact Hr | exact Hc].
Defined.

Lemma main_copy_mode_never_opens_the_window_witness :
  args_output (demo_args output_copy) = output_copy /\
  snd (main every_file_decodes demo_listdir demo_makedirs (demo_args output_copy) demo_fs)
  = Raised NameError.
Proof.
  split; [reflexivity|].
  destruct (main_copy_mode_never_opens_the_window every_file_decodes demo_listdir
              demo_makedirs (demo_args output_copy) demo_fs eq_refl) as [_ Hname].
  rewrite (Hname demo_fs ["in/b.jpg"; "in/a.jpg"]);
    [reflexivity | vm_compute; reflexivity | vm_compute; reflexivity].
Defined.


Lemma list_file_gives_one_path_per_line_witness :
  files listed_fs !! os_path_join "in" ["list.txt"]
  = Some ("a.jpg" ++ newline ++ newline ++ " b.jpg" ++ newline) /\
  count_lines ("a.jpg" ++ newline ++ newline ++ " b.jpg" ++ newline) = 3 /\
  exists pths,
    collect_paths demo_listdir "in" (Some "list.txt") (Some "pics") listed_fs
    = Returned pths /\
    length pths = 3.
Proof.
  assert (files listed_fs !! os_path_join "in" ["list.txt"]
          = Some ("a.jpg" ++ newline ++ newline ++ " b.jpg" ++ newline)) as Hfile
    by (vm_compute; reflexivity).
  split; [exact Hfile|]. split; [reflexivity|].
  exact (proj1 (list_file_gives_one_path_per_line demo_listdir "in" "l" "ist.txt"
                  (Some "pics") listed_fs _ Hfile) "pics" eq_refl).
Defined.

Lemma listing_gives_the_image_names_witness :
  demo_listdir demo_fs "in" = Returned ["b.jpg"; "notes.txt"; "a.jpg"; "c.JPG"; "cat"] /\
  exists pths,
    collect_paths demo_listdir "in" None None demo_fs = Returned pths /\
    map os_path_basename pths = ["b.jpg"; "a.jpg"].
Proof.
  split; [reflexivity|].
  destruct (listing_gives_the_image_names demo_listdir "in" None None demo_fs
              ["b.jpg"; "notes.txt"; "a.jpg"; "c.JPG"; "cat"]
              (or_introl eq_refl) eq_refl) as (pths & Hp & Hnames & _);
    [repeat constructor|].
  exists pths. split; [exact Hp | exact Hnames].
Defined.

Lemma make_label_folders_keeps_existing_witness :
  Forall (fun label => os_path_exists demo_fs (os_path_join "in" [label]) = true)
         demo_labels /\
  make_label_folders (fun _ _ => Raised FileNotFoundError) "in" demo_labels demo_fs
  = (demo_fs, Returned tt).
Proof.
  assert (Forall (fun label => os_path_exists demo_fs (os_path_join "in" [label]) = true)
            demo_labels) as Hall by (repeat constructor; vm_compute; reflexivity).
  split; [exact Hall|].
  exact (make_label_folders_keeps_existing (fun _ _ => Raised FileNotFoundError)
           "in" demo_labels demo_fs Hall).
Defined.

Lemma last_relocate_vote_quits_witness :
  copyfile demo_fs "in/c.jpg" (output_path "in/c.jpg" "dog")
  = Returned (write_file demo_fs "in/dog/c.jpg" "C") /\
  snd (vote every_file_decodes "dog" (World (set_index 2 relocate_session) demo_fs))
  = Returned tt /\
  master_quit (self (fst (vote every_file_decodes "dog"
                            (World (set_index 2 relocate_session) demo_fs)))) = true.
Proof.
  assert (copyfile demo_fs "in/c.jpg" (output_path "in/c.jpg" "dog")
          = Returned (write_file demo_fs "in/dog/c.jpg" "C")) as Hcopy
    by (vm_compute; reflexivity).
  destruct (last_relocate_vote_quits every_file_decodes "dog"
              (World (set_index 2 relocate_session) demo_fs) "in/c.jpg" _
              eq_refl eq_refl eq_refl eq_refl Hcopy) as (Hret & _ & _ & Hquit & _).
  split; [exact Hcopy|]. split; [exact Hret | exact Hquit].
Defined.
